(** * SincNet: the dataset wrapper and the sinc layer of [SincNet.ipynb]

    A shallow embedding of the two classes of the notebook that carry its
    signal processing:

    - [SincNetDataset] ([__init__], [load_sample], [__getitem__],
      [_prepare_sample]): loading, denoising, splitting and normalising a
      recording;
    - [Custom] ([forward]): the band-pass filter bank and its convolution
      with a batch of segments.

    Python exceptions are values of [Py.exn] and every function that can raise
    returns a [Py.result].  The float32 tensors of the dataset are lists of
    IEEE-754 binary32 numbers ([spec_float] at precision 24, maximal exponent
    128), so that the not-a-number and the infinities of a division by zero
    are those of the machine.  The sinc layer needs [sin], [cos] and [PI]:
    its tensors are lists of real numbers, and the global random generator of
    [torch.rand] is an explicit state. *)

From Stdlib Require Import String.
From Stdlib Require Import ZArith QArith Qround List Bool Lia Arith.
From Stdlib Require Import Floats.SpecFloat.
From Stdlib Require Import Reals Lra.
From Stdlib Require Import Sorting.Sorted Permutation.
Import ListNotations.

Close Scope Q_scope.
Close Scope R_scope.
Open Scope nat_scope.

Set Implicit Arguments.

(** ** Python: exceptions, results, list indexing *)

Module Py.

Inductive exn : Type :=
| NameError (name : string)
| UnboundLocalError (name : string)
| AttributeError (name : string)
| IndexError
| ValueError
| ZeroDivisionError
| RuntimeError.

Inductive result (A : Type) : Type :=
| Ok (a : A)
| Raise (e : exn).

Arguments Ok {A} a.
Arguments Raise {A} e.

Definition bind {A B : Type} (r : result A) (k : A -> result B) : result B :=
  match r with
  | Ok a => k a
  | Raise e => Raise e
  end.

Definition is_ok {A : Type} (r : result A) : bool :=
  match r with
  | Ok _ => true
  | Raise _ => false
  end.

(** [l[index]] on a Python list: a negative index counts from the end. *)
Definition getitem {A : Type} (l : list A) (index : Z) : result A :=
  let n := Z.of_nat (length l) in
  let i := if (index <? 0)%Z then (index + n)%Z else index in
  if ((0 <=? i)%Z && (i <? n)%Z)%bool then
    match nth_error l (Z.to_nat i) with
    | Some a => Ok a
    | None => Raise IndexError
    end
  else Raise IndexError.

(** Reading a local variable that may not have been assigned. *)
Definition local {A : Type} (name : string) (v : option A) : result A :=
  match v with
  | Some a => Ok a
  | None => Raise (UnboundLocalError name)
  end.

(** Reading an attribute that may not have been set. *)
Definition attr {A : Type} (name : string) (v : option A) : result A :=
  match v with
  | Some a => Ok a
  | None => Raise (AttributeError name)
  end.

(** [x in l] for strings. *)
Definition contains (x : string) (l : list string) : bool :=
  existsb (String.eqb x) l.

(** Insertion of [x] in a list sorted for [leb], after the elements that are
    not larger: the sort below is stable, as [sorted] is. *)
Fixpoint insert_sorted {A : Type} (leb : A -> A -> bool) (x : A) (l : list A)
  : list A :=
  match l with
  | [] => [x]
  | y :: r => if leb y x then y :: insert_sorted leb x r else x :: l
  end.

Definition sorted {A : Type} (leb : A -> A -> bool) (l : list A) : list A :=
  fold_left (fun acc x => insert_sorted leb x acc) l [].

End Py.

Declare Scope py_scope.
Delimit Scope py_scope with py.
Notation "x <- e ;; k" := (Py.bind e (fun x => k))
  (at level 61, e at next level, right associativity) : py_scope.
Notation "' p <- e ;; k" := (Py.bind e (fun p => k))
  (at level 61, p pattern, e at next level, right associativity) : py_scope.

(** ** float32 *)

Module F32.

Definition prec : Z := 24.
Definition emax : Z := 128.

Definition t : Type := spec_float.

Definition nan : t := S754_nan.
Definition zero : t := S754_zero false.

Definition add : t -> t -> t := SFadd prec emax.
Definition sub : t -> t -> t := SFsub prec emax.
Definition mul : t -> t -> t := SFmul prec emax.
Definition div : t -> t -> t := SFdiv prec emax.
Definition sqrt : t -> t := SFsqrt prec emax.
Definition abs : t -> t := SFabs.

(** The conversion of a Python integer, rounded to the nearest float32. *)
Definition of_Z (z : Z) : t := binary_normalize prec emax z 0 false.

(** [x > y]; false as soon as one side is not a number. *)
Definition gtb (x y : t) : bool :=
  match SFcompare x y with
  | Some Gt => true
  | _ => false
  end.

Definition is_zero (x : t) : bool :=
  match x with
  | S754_zero _ => true
  | _ => false
  end.

Definition is_nan (x : t) : bool :=
  match x with
  | S754_nan => true
  | _ => false
  end.

Definition is_inf (x : t) : bool :=
  match x with
  | S754_infinity _ => true
  | _ => false
  end.

(** A sign bit that is clear: [+0], a positive number or [+inf]. *)
Definition sign_clear (x : t) : bool :=
  match x with
  | S754_zero s | S754_infinity s | S754_finite s _ _ => negb s
  | S754_nan => false
  end.

(** The larger of two numbers; not-a-number wins, as in [torch.max]. *)
Definition max2 (x y : t) : t :=
  match SFcompare x y with
  | None => nan
  | Some Lt => y
  | Some _ => x
  end.

End F32.

(** ** torch: the tensor functions the dataset uses

    A 1-D tensor is a list.  Reductions run from left to right. *)

Module Torch.

(** [torch.max(t)]: refuses an empty tensor. *)
Definition max (t : list F32.t) : Py.result F32.t :=
  match t with
  | [] => Py.Raise Py.RuntimeError
  | x :: r => Py.Ok (fold_left F32.max2 r x)
  end.

Definition sum (t : list F32.t) : F32.t := fold_left F32.add t F32.zero.

(** [torch.mean(t)]: the sum over the number of elements. *)
Definition mean (t : list F32.t) : F32.t :=
  F32.div (sum t) (F32.of_Z (Z.of_nat (length t))).

(** [torch.std(t)]: Bessel's correction, the divisor is [max(0, N - 1)]. *)
Definition std (t : list F32.t) : F32.t :=
  let m := mean t in
  let sq := map (fun x => F32.mul (F32.sub x m) (F32.sub x m)) t in
  F32.sqrt (F32.div (sum sq) (F32.of_Z (Z.of_nat (length t - 1)))).

(** The sizes of the sections of [torch.tensor_split(t, sections)]: the first
    [dim_size mod sections] sections hold one element more. *)
Definition split_sizes (dim_size sections : nat) : list nat :=
  map (fun split_idx =>
         if split_idx <? dim_size mod sections
         then dim_size / sections + 1
         else dim_size / sections)
      (seq 0 sections).

Fixpoint narrow_all {A : Type} (t : list A) (sizes : list nat)
  : list (list A) :=
  match sizes with
  | [] => []
  | s :: r => firstn s t :: narrow_all (skipn s t) r
  end.

(** [torch.tensor_split(t, sections, dim)] along the dimension of [t]. *)
Definition tensor_split {A : Type} (t : list A) (sections : Z)
  : Py.result (list (list A)) :=
  if (sections <=? 0)%Z then Py.Raise Py.RuntimeError
  else Py.Ok (narrow_all t (split_sizes (length t) (Z.to_nat sections))).

End Torch.

(** ** sklearn: [LabelEncoder] *)

Module LabelEncoder.

Record t : Type := { classes_ : list string }.

Definition new : t := {| classes_ := [] |}.

(** [fit]: the classes are the distinct labels in increasing order. *)
Definition fit (y : list string) : t :=
  {| classes_ := nodup string_dec (Py.sorted String.leb y) |}.

Fixpoint index_of (x : string) (l : list string) : option nat :=
  match l with
  | [] => None
  | c :: r =>
      if String.eqb x c then Some 0%nat
      else option_map S (index_of x r)
  end.

Definition encode (self : t) (label : string) : Py.result Z :=
  match index_of label (classes_ self) with
  | Some i => Py.Ok (Z.of_nat i)
  | None => Py.Raise Py.ValueError
  end.

(** [transform]: the position of each label among the classes; a label that
    was not seen by [fit] is refused. *)
Fixpoint transform (self : t) (y : list string) : Py.result (list Z) :=
  match y with
  | [] => Py.Ok []
  | l :: r =>
      Py.bind (encode self l) (fun i =>
      Py.bind (transform self r) (fun ids => Py.Ok (i :: ids)))
  end.

(** [a.item()]: the only element of an array of size one. *)
Definition item {A : Type} (a : list A) : Py.result A :=
  match a with
  | [x] => Py.Ok x
  | _ => Py.Raise Py.ValueError
  end.

End LabelEncoder.

(** ** [class SincNetDataset(Dataset)] *)

Module SincNetDataset.

Definition DATA_MODES : list string :=
  ["train"%string; "val"%string; "test"%string].

(** A [pathlib.Path] is the list of its parts; paths compare part by part. *)
Definition Path : Type := list string.

Fixpoint path_leb (p q : Path) : bool :=
  match p, q with
  | [], _ => true
  | _ :: _, [] => false
  | a :: p', b :: q' =>
      match String.compare a b with
      | Lt => true
      | Gt => false
      | Eq => path_leb p' q'
      end
  end.

(** [path.parent.name]: the name of the directory that holds the file. *)
Definition parent_name (path : Path) : string :=
  match rev path with
  | _ :: d :: _ => d
  | _ => EmptyString
  end.

(** What [torchaudio.load] gives: channels by frames. *)
Definition waveform : Type := list (list F32.t).

Record t : Type := {
  files : list Path;
  wavetime : Q;
  trashhold : F32.t;
  mode : string;
  len_ : nat;
  label_encoder : LabelEncoder.t;
  labels : option (list string)
}.

(** What [__getitem__] returns: a pair in test mode, a triple otherwise. *)
Inductive item : Type :=
| Pair (x : list (list F32.t)) (f : list F32.t)
| Triple (x : list (list F32.t)) (f : list F32.t) (y : list F32.t).

(** The constructor.  The dump of the encoder to [label_encoder.pkl] leaves
    the object unchanged and is not modelled. *)
Definition __init__ (files0 : list Path) (mode0 : string) (wavetime0 : Q)
  (trashhold0 : F32.t) : Py.result t :=
  let files1 := Py.sorted path_leb files0 in
  if negb (Py.contains mode0 DATA_MODES) then
    Py.Raise (Py.NameError EmptyString)
  else
    if negb (String.eqb mode0 "test") then
      let labels1 := map parent_name files1 in
      Py.Ok {| files := files1; wavetime := wavetime0;
               trashhold := trashhold0; mode := mode0;
               len_ := length files1;
               label_encoder := LabelEncoder.fit labels1;
               labels := Some labels1 |}
    else
      Py.Ok {| files := files1; wavetime := wavetime0;
               trashhold := trashhold0; mode := mode0;
               len_ := length files1;
               label_encoder := LabelEncoder.new;
               labels := None |}.

Definition __len__ (self : t) : nat := len_ self.

(** [torch.FloatTensor] of a list of Python integers. *)
Definition FloatTensor (l : list Z) : list F32.t := map F32.of_Z l.

(** [a // b] for an integer and a float: the floor of the quotient. *)
Definition floordiv (a : Z) (b : Q) : Py.result Z :=
  if Qeq_bool b 0 then Py.Raise Py.ZeroDivisionError
  else Py.Ok (Qfloor (inject_Z a / b)).

(** [a > b] for an integer and a float. *)
Definition gt (a : Z) (b : Q) : bool := negb (Qle_bool (inject_Z a) b).

(** [clean]: the samples of the first channel that pass the noise gate
    [sample[0] > trashhold * max(abs(sample[0]))]. *)
Definition clean (self : t) (sample0 : list F32.t) : Py.result (list F32.t) :=
  (m <- Torch.max (map F32.abs sample0) ;;
   Py.Ok (filter (fun v => F32.gtb v (F32.mul (trashhold self) m)) sample0))%py.

(** [number]: the product [wavetime * sample_rate], taken exactly. *)
Definition number (self : t) (sample_rate : Z) : Q :=
  (wavetime self * inject_Z sample_rate)%Q.

(** The body of the loop that ends [_prepare_sample]:
    [(samples[i] - mean(samples[i])) / std(samples[i])]. *)
Definition normalize (s : list F32.t) : list F32.t :=
  map (fun v => F32.div (F32.sub v (Torch.mean s)) (Torch.std s)) s.

(** [_prepare_sample].  [samples] is assigned only in the branch of the
    [if]; the loop after it reads the variable in both cases. *)
Definition _prepare_sample (self : t) (sample : waveform) (sample_rate : Z)
  : Py.result (list (list F32.t)) :=
  (sample0 <- Py.getitem sample 0 ;;
   clean0 <- clean self sample0 ;;
   let number0 := number self sample_rate in
   let len := Z.of_nat (length clean0) in
   samples <-
     (if gt len number0 then
        q <- floordiv len number0 ;;
        samples <- Torch.tensor_split clean0 (q + 1) ;;
        last_sample <- Py.getitem samples (-1) ;;
        Py.Ok (Some (removelast samples))
      else Py.Ok None) ;;
   samples <- Py.local "samples" samples ;;
   Py.Ok (map normalize samples))%py.

Section Loading.

(** The recordings on disk, as [torchaudio.load] reads them. *)
Variable torchaudio_load : Path -> Py.result (waveform * Z).

Definition load_sample (file : Path) : Py.result (waveform * Z) :=
  torchaudio_load file.

Definition __getitem__ (self : t) (index : Z) : Py.result item :=
  (file <- Py.getitem (files self) index ;;
   '(x, f) <- load_sample file ;;
   x <- _prepare_sample self x f ;;
   let f := FloatTensor (repeat f (length x)) in
   if String.eqb (mode self) "test" then Py.Ok (Pair x f)
   else
     labels0 <- Py.attr "labels" (labels self) ;;
     label <- Py.getitem labels0 index ;;
     label_id <- LabelEncoder.transform (label_encoder self) [label] ;;
     y <- LabelEncoder.item label_id ;;
     let y := FloatTensor (repeat y (length x)) in
     Py.Ok (Triple x f y))%py.

End Loading.

End SincNetDataset.


(** ** torch: the tensor functions the sinc layer uses

    The tensors of the layer hold real numbers.  A 3-D tensor is a list of
    lists of lists: batch (or filter) by channel by time. *)

Module TorchR.

Local Open Scope R_scope.

Definition tensor3 : Type := list (list (list R)).

(** [T[b, c, t]]. *)
Definition entry (T : tensor3) (b c t : nat) : R :=
  nth t (nth c (nth b T []) []) 0.

(** The sum of [f k] for [k] from 0 to [len - 1]. *)
Definition sum_upto (len : nat) (f : nat -> R) : R :=
  fold_right Rplus 0 (map f (seq 0 len)).

(** The default generator of [torch.rand]: a supply of draws and the number
    of draws already consumed. *)
Record Generator : Type := { draws : nat -> R; offset : nat }.

(** The draws lie in [0, 1). *)
Definition uniform (g : Generator) : Prop :=
  forall i : nat, 0 <= draws g i < 1.

(** [torch.rand(n, 1, 1)]: the next [n] draws; the generator advances. *)
Definition rand (n : nat) (g : Generator) : list R * Generator :=
  (map (fun i => draws g (offset g + i)%nat) (seq 0 n),
   {| draws := draws g; offset := (offset g + n)%nat |}).

(** [torch.sinc]: the normalised sinc, [sin(pi x) / (pi x)], and 1 at 0. *)
Definition sinc (x : R) : R :=
  if Req_dec_T x 0 then 1 else sin (PI * x) / (PI * x).

(** [torch.hamming_window(window_length)], periodic, with [alpha = 0.54] and
    [beta = 0.46]: the first [window_length] values of the symmetric window
    of length [window_length + 1]. *)
Definition hamming_window (window_length : nat) : list R :=
  match window_length with
  | O => []
  | S O => [1]
  | _ =>
      map (fun i => cos (INR i * (PI * 2) / INR window_length) * - 0.46 + 0.54)
          (seq 0 window_length)
  end.

(** The sum of the products of two rows. *)
Definition dot (a b : list R) : R :=
  fold_right Rplus 0 (map (fun p => fst p * snd p) (combine a b)).

(** One output value of the cross-correlation: the window of every input
    channel that starts at [t], against the kernel of that channel. *)
Definition correlate (channels kernel : list (list R)) (kernel_size t : nat)
  : R :=
  fold_right Rplus 0
    (map (fun p => dot (firstn kernel_size (skipn t (fst p))) (snd p))
         (combine channels kernel)).

(** [F.conv1d(input, weight)] with stride 1, no padding, no dilation and one
    group.  The weight must hold a filter, every element of the batch must
    have the channels of the filters, and the kernel may not be empty nor
    longer than the input. *)
Definition conv1d (input weight : tensor3) : Py.result tensor3 :=
  match weight with
  | [] => Py.Raise Py.RuntimeError
  | w0 :: _ =>
      let in_channels := length w0 in
      let kernel_size := length (hd [] w0) in
      if (forallb (fun b => length b =? in_channels)%nat input
          && forallb (forallb (fun c => kernel_size <=? length c)%nat) input
          && (1 <=? kernel_size)%nat)%bool
      then
        Py.Ok
          (map (fun b =>
                  map (fun w =>
                         map (correlate b w kernel_size)
                             (seq 0 (length (hd [] b) - kernel_size + 1)))
                      weight)
               input)
      else Py.Raise Py.RuntimeError
  end.

End TorchR.

(** ** [class Custom(nn.Module)]: the sinc layer *)

Module Custom.

Import TorchR.
Local Open Scope R_scope.

Record t : Type := { number_of_filters : nat; L : nat }.

Definition __init__ (number_of_filters0 l : nat) : t :=
  {| number_of_filters := number_of_filters0; L := l |}.

(** [n]: the offsets [0 .. L-1]. *)
Definition n (self : t) : list R := map INR (seq 0 (L self)).

(** [f_1 = torch.rand(number_of_filters, 1, 1) * sample_rate / 2]. *)
Definition f_1 (sample_rate : R) (u1 : list R) : list R :=
  map (fun u => u * sample_rate / 2) u1.

(** [f_2 = f_1 + torch.abs(f_1 - torch.rand(...) * sample_rate / 2)]. *)
Definition f_2 (sample_rate : R) (f1 u2 : list R) : list R :=
  map (fun p => fst p + Rabs (fst p - snd p * sample_rate / 2))
      (combine f1 u2).

(** One value of [g_filter]. *)
Definition g (f1 f2 n0 : R) : R :=
  2 * f2 * sinc (2 * PI * f2 * n0) - 2 * f1 * sinc (2 * PI * f1 * n0).

(** [g_filter = 2*f_2*sinc(2*PI*f_2*n) - 2*f_1*sinc(2*PI*f_1*n)], of shape
    (filters, 1, L). *)
Definition g_filter (f1 f2 n0 : list R) : tensor3 :=
  map (fun p => [map (g (fst p) (snd p)) n0]) (combine f1 f2).

(** [result_filters = g_filter * hamming_window]. *)
Definition result_filters (gf : tensor3) (window : list R) : tensor3 :=
  map (map (fun row => map (fun p => fst p * snd p) (combine row window))) gf.

(** The local variables of [forward] up to the kernels, and the generator
    after the two calls of [torch.rand]. *)
Record locals : Type := {
  l_f_1 : list R;
  l_f_2 : list R;
  l_g_filter : tensor3;
  l_result_filters : tensor3;
  l_generator : Generator
}.

Definition kernels (self : t) (sample_rate : R) (gen : Generator) : locals :=
  let window := hamming_window (L self) in
  let n0 := n self in
  let (u1, gen1) := rand (number_of_filters self) gen in
  let f1 := f_1 sample_rate u1 in
  let (u2, gen2) := rand (number_of_filters self) gen1 in
  let f2 := f_2 sample_rate f1 u2 in
  let gf := g_filter f1 f2 n0 in
  {| l_f_1 := f1; l_f_2 := f2; l_g_filter := gf;
     l_result_filters := result_filters gf window;
     l_generator := gen2 |}.

(** [results]: the value the convolution assigns. *)
Definition results (self : t) (x : tensor3) (sample_rate : R)
  (gen : Generator) : Py.result tensor3 :=
  conv1d x (l_result_filters (kernels self sample_rate gen)).

(** [forward].  [DEVICE] is the CPU, as in the recorded run of the notebook,
    so the window and the other tensors live on the same device.  The name in
    the [return] statement, [resultsl], is bound nowhere in the notebook. *)
Definition forward (self : t) (x : tensor3) (sample_rate : R)
  (gen : Generator) : Py.result tensor3 * Generator :=
  let k := kernels self sample_rate gen in
  (Py.bind (conv1d x (l_result_filters k))
           (fun results0 => Py.Raise (Py.NameError "resultsl")),
   l_generator k).

End Custom.

(** ** The words of the specification, for comparison with the code *)

Module Spec.

(** The noise gate as the specification has it: a sample stays when its
    absolute amplitude is at least [threshold * max |amplitude|]. *)
Definition denoise (threshold : F32.t) (w : list F32.t)
  : Py.result (list F32.t) :=
  (m <- Torch.max (map F32.abs w) ;;
   Py.Ok (filter (fun v => SFleb (F32.mul threshold m) (F32.abs v)) w))%py.

(** The sinc of the specification and of the text of the notebook:
    [sin(x) / x], and 1 at 0. *)
Definition sinc (x : R) : R :=
  if Req_dec_T x 0 then 1%R else (sin x / x)%R.

(** The unwindowed kernel value of the specification. *)
Definition g (f1 f2 n : R) : R :=
  (2 * f2 * sinc (2 * PI * f2 * n) - 2 * f1 * sinc (2 * PI * f1 * n))%R.

End Spec.

(** ** Notions used in the statements *)

Module Notions.

(** The sections [_prepare_sample] keeps, before the normalisation: all the
    sections of [tensor_split] but the last. *)
Definition kept (c : list F32.t) (number0 : Q) : list (list F32.t) :=
  removelast
    (Torch.narrow_all c
       (Torch.split_sizes (length c)
          (Z.to_nat (Qfloor (inject_Z (Z.of_nat (length c)) / number0) + 1)))).

(** A float whose sign bit is clear, or not-a-number. *)
Definition clear_or_nan (x : F32.t) : Prop :=
  F32.sign_clear x = true \/ x = F32.nan.

End Notions.

(** ** Concrete inputs *)

Module Examples.

Import SincNetDataset.

(** The default noise threshold, 0.01, as a float32. *)
Definition threshold : F32.t := F32.div (F32.of_Z 1) (F32.of_Z 100).

Definition paths : list Path :=
  [["b"%string; "2.flac"%string]; ["a"%string; "1.flac"%string]].

(** [SincNetDataset(paths, "train", 0.2)]. *)
Definition dataset : t :=
  {| files := [["a"%string; "1.flac"%string]; ["b"%string; "2.flac"%string]];
     wavetime := 1 # 5;
     trashhold := threshold;
     mode := "train";
     len_ := 2;
     label_encoder := {| LabelEncoder.classes_ := ["a"%string; "b"%string] |};
     labels := Some ["a"%string; "b"%string] |}.

(** [SincNetDataset(paths, "test", 0.2)]. *)
Definition test_dataset : t :=
  {| files := [["a"%string; "1.flac"%string]; ["b"%string; "2.flac"%string]];
     wavetime := 1 # 5;
     trashhold := threshold;
     mode := "test";
     len_ := 2;
     label_encoder := LabelEncoder.new;
     labels := None |}.

Definition ramp : list F32.t := map F32.of_Z [1; 2; 3; 4; 5; 6; 7]%Z.
Definition ones (k : nat) : list F32.t := repeat (F32.of_Z 1) k.
Definition edge : list F32.t := map F32.of_Z [1; 100]%Z.
Definition mixed : list F32.t := map F32.of_Z [-3; 0; 2; 5]%Z.
Definition broken : list F32.t := [F32.of_Z 1; F32.nan].

(** A disk on which every recording holds two samples at 16 kHz. *)
Definition disk (file : Path) : Py.result (waveform * Z) :=
  Py.Ok ([ones 2], 16000%Z).

(** A disk on which every recording is the ramp, at 15 Hz. *)
Definition ramp_disk (file : Path) : Py.result (waveform * Z) :=
  Py.Ok ([ramp], 15%Z).

Import TorchR.
Local Open Scope R_scope.

(** [Custom(1, 2)]: one filter of length 2. *)
Definition layer : Custom.t := Custom.__init__ 1 2.

Definition gen_half : Generator :=
  {| draws := fun i => if (i =? 1)%nat then 1 / 2 else 0; offset := 0 |}.


Definition gen_low : Generator :=
  {| draws := fun i => if (i =? 1)%nat then 1 / 32000 else 0; offset := 0 |}.

Definition gen_high : Generator :=
  {| draws := fun i => if (i =? 0)%nat then 4 / 5 else 0; offset := 0 |}.

Definition batch : tensor3 := [[[1; 2; 3]]].
Definition short_batch : tensor3 := [[[1]]].

End Examples.

(** * Facts *)

(** ** Python lists *)

Module PyFacts.
Import Py.

Lemma getitem_last (A : Type) (l : list A) :
  l <> [] -> exists a, getitem l (-1) = Ok a.
Proof.
  intros Hl. unfold getitem. cbv zeta.
  assert (Hn : 0 < length l) by (destruct l; simpl; [congruence|lia]).
  change (-1 <? 0)%Z with true. cbv iota.
  destruct ((0 <=? -1 + Z.of_nat (length l))%Z
            && (-1 + Z.of_nat (length l) <? Z.of_nat (length l))%Z)%bool eqn:B.
  - destruct (nth_error l (Z.to_nat (-1 + Z.of_nat (length l)))) eqn:E.
    + exists a. reflexivity.
    + apply nth_error_None in E. lia.
  - apply andb_false_iff in B. destruct B as [B|B].
    + apply Z.leb_gt in B. lia.
    + apply Z.ltb_ge in B. lia.
Qed.

Lemma getitem_inv (A : Type) (l : list A) (index : Z) (a : A) :
  getitem l index = Ok a ->
  exists i, i < length l /\ nth_error l i = Some a /\
            (index = Z.of_nat i \/ index = (Z.of_nat i - Z.of_nat (length l))%Z).
Proof.
  unfold getitem. intros H.
  set (n := Z.of_nat (length l)) in *.
  set (j := if (index <? 0)%Z then (index + n)%Z else index) in *.
  destruct ((0 <=? j)%Z && (j <? n)%Z)%bool eqn:E; [|discriminate].
  apply andb_prop in E. destruct E as [E1 E2].
  apply Z.leb_le in E1. apply Z.ltb_lt in E2.
  destruct (nth_error l (Z.to_nat j)) eqn:N; [|discriminate].
  injection H as ->. exists (Z.to_nat j). repeat split.
  - unfold n in E2. lia.
  - exact N.
  - subst j. destruct (index <? 0)%Z eqn:I; [right|left]; unfold n in *; lia.
Qed.

Lemma getitem_map (A B : Type) (f : A -> B) (l : list A) (index : Z) (a : A) :
  getitem l index = Ok a -> getitem (map f l) index = Ok (f a).
Proof.
  unfold getitem. rewrite length_map.
  destruct ((0 <=? _)%Z && _)%bool; [|discriminate].
  rewrite nth_error_map.
  destruct (nth_error l _); [|discriminate].
  intros H. injection H as ->. reflexivity.
Qed.

End PyFacts.

(** ** Comparisons and divisions of float32 numbers *)

Module F32Facts.
Import F32.

Lemma gtb_abs (v b : t) : gtb v b = true -> gtb (abs v) b = true.
Proof.
  unfold gtb, abs.
  destruct v as [sv|sv| |sv mv ev], b as [sb|sb| |sb mb eb]; simpl;
    try (destruct sv); try (destruct sb); simpl; try congruence.
Qed.

Lemma leb_abs_not_gtb (v b : t) : SFleb (abs v) b = true -> gtb v b = false.
Proof.
  unfold gtb, abs, SFleb.
  destruct v as [sv|sv| |sv mv ev], b as [sb|sb| |sb mb eb]; simpl;
    try (destruct sv); try (destruct sb); simpl; try congruence.
  - destruct (ev ?= eb)%Z; try congruence.
    destruct (Pos.compare_cont Eq mv mb); congruence.
Qed.

Lemma abs_sign_clear (v : t) : sign_clear v = true -> abs v = v.
Proof. destruct v as [[]|[]| |[] m e]; simpl; congruence. Qed.

Lemma div_zero (x z : t) :
  is_zero z = true -> is_nan (div x z) = true \/ is_inf (div x z) = true.
Proof.
  destruct z; simpl; try discriminate. intros _.
  destruct x; simpl; auto.
Qed.
End F32Facts.

(** ** The sections of [tensor_split] *)

Module TorchFacts.
Import Torch.

Lemma split_sizes_length (n k : nat) : length (split_sizes n k) = k.
Proof. unfold split_sizes. now rewrite length_map, length_seq. Qed.

Lemma narrow_all_length (A : Type) (sizes : list nat) (t : list A) :
  length (narrow_all t sizes) = length sizes.
Proof.
  revert t. induction sizes as [|s r IH]; intros t; simpl; [reflexivity|].
  now rewrite IH.
Qed.

Lemma narrow_all_lengths (A : Type) (sizes : list nat) (t : list A) :
  list_sum sizes <= length t -> map (@length A) (narrow_all t sizes) = sizes.
Proof.
  revert t. induction sizes as [|s r IH]; intros t H; simpl in *; [reflexivity|].
  rewrite length_firstn, IH.
  - f_equal. lia.
  - rewrite length_skipn. lia.
Qed.

Lemma sum_sizes (q r m a : nat) :
  list_sum (map (fun i => if i <? r then q + 1 else q) (seq a m))
  = m * q + (Nat.min r (a + m) - Nat.min r a).
Proof.
  revert a. induction m as [|m IH]; intros a; simpl.
  - lia.
  - rewrite IH. destruct (a <? r) eqn:E.
    + apply Nat.ltb_lt in E. lia.
    + apply Nat.ltb_ge in E. lia.
Qed.

Lemma split_sizes_sum (n k : nat) : 0 < k -> list_sum (split_sizes n k) = n.
Proof.
  intros Hk. unfold split_sizes. rewrite sum_sizes.
  pose proof (Nat.mod_upper_bound n k ltac:(lia)) as Hr.
  pose proof (Nat.div_mod_eq n k) as Hd.
  rewrite Nat.min_l by lia. rewrite Nat.min_r by lia. lia.
Qed.

Lemma tensor_split_ok (A : Type) (t : list A) (sections : Z) :
  (0 < sections)%Z ->
  tensor_split t sections
  = Py.Ok (narrow_all t (split_sizes (length t) (Z.to_nat sections))).
Proof.
  intros H. unfold tensor_split.
  destruct (sections <=? 0)%Z eqn:E; [apply Z.leb_le in E; lia|reflexivity].
Qed.

Lemma removelast_length (A : Type) (l : list A) :
  length (removelast l) = length l - 1.
Proof.
  induction l as [|a [|b r] IH]; simpl in *; try reflexivity.
  rewrite IH. lia.
Qed.

Lemma map_removelast (A B : Type) (f : A -> B) (l : list A) :
  map f (removelast l) = removelast (map f l).
Proof.
  induction l as [|a [|b r] IH]; simpl in *; try reflexivity.
  now rewrite IH.
Qed.

Lemma split_sizes_values (n k s : nat) :
  In s (split_sizes n k) -> s = n / k \/ s = n / k + 1.
Proof.
  unfold split_sizes. intros H. apply in_map_iff in H.
  destruct H as [i [<- _]]. destruct (i <? n mod k); auto.
Qed.

Lemma split_sizes_last (n k : nat) :
  0 < k -> last (split_sizes n k) 0 = n / k.
Proof.
  intros Hk. unfold split_sizes.
  destruct k as [|k]; [lia|].
  rewrite seq_S, map_app. cbn [map]. rewrite last_last. cbn [Nat.add].
  pose proof (Nat.mod_upper_bound n (S k) ltac:(lia)) as Hr.
  destruct (k <? n mod S k) eqn:E; [apply Nat.ltb_lt in E; lia|reflexivity].
Qed.

Lemma narrow_all_concat (A : Type) (sizes : list nat) (t : list A) :
  list_sum sizes = length t -> concat (narrow_all t sizes) = t.
Proof.
  revert t. induction sizes as [|s r IH]; intros t H; simpl in *.
  - symmetry in H. apply length_zero_iff_nil in H. now subst.
  - rewrite IH.
    + apply firstn_skipn.
    + rewrite length_skipn. lia.
Qed.

Lemma In_removelast (A : Type) (l : list A) (x : A) :
  In x (removelast l) -> In x l.
Proof.
  induction l as [|a r IH]; [tauto|].
  destruct r as [|b r]; [simpl; tauto|].
  intros [H|H]; [now left|right; now apply IH].
Qed.

Lemma last_map (A B : Type) (f : A -> B) (l : list A) (d : A) :
  last (map f l) (f d) = f (last l d).
Proof.
  induction l as [|a r IH]; [reflexivity|].
  destruct r as [|b r]; [reflexivity|]. exact IH.
Qed.

End TorchFacts.

(** ** [_prepare_sample]: auxiliary facts *)

Module SegmenterFacts.
Import SincNetDataset Notions.
Import F32Facts TorchFacts PyFacts.

Lemma floordiv_pos (a : Z) (b : Q) :
  (0 < b)%Q -> floordiv a b = Py.Ok (Qfloor (inject_Z a / b)).
Proof.
  intros Hb. unfold floordiv.
  destruct (Qeq_bool b 0) eqn:E; [|reflexivity].
  apply Qeq_bool_iff in E. rewrite E in Hb. now apply Qlt_irrefl in Hb.
Qed.

Lemma gt_spec (a : Z) (b : Q) : gt a b = true <-> (b < inject_Z a)%Q.
Proof.
  unfold gt. rewrite negb_true_iff. split; intros H.
  - apply Qnot_le_lt. intros C. apply Qle_bool_iff in C. congruence.
  - destruct (Qle_bool (inject_Z a) b) eqn:E; [|reflexivity].
    apply Qle_bool_iff in E. exfalso. now apply (Qlt_not_le _ _ H).
Qed.

Lemma floor_quotient_nonneg (a : Z) (b : Q) :
  (0 < b)%Q -> (0 <= a)%Z -> (0 <= Qfloor (inject_Z a / b))%Z.
Proof.
  intros Hb Ha. change 0%Z with (Qfloor 0). apply Qfloor_resp_le.
  apply Qle_shift_div_l; [exact Hb|].
  rewrite Qmult_0_l. change 0%Q with (inject_Z 0). now rewrite <- Zle_Qle.
Qed.

Lemma floor_integral (a n0 : Z) (number0 : Q) :
  (number0 == inject_Z n0)%Q ->
  Qfloor (inject_Z a / number0) = (a / n0)%Z.
Proof.
  intros H. rewrite Zdiv_Qdiv. apply Qfloor_comp. now rewrite H.
Qed.



(** What [clean] returns, given the maximum. *)
Lemma clean_inv (self : t) (sample0 c : list F32.t) (m : F32.t) :
  Torch.max (map F32.abs sample0) = Py.Ok m ->
  clean self sample0 = Py.Ok c ->
  c = filter (fun v => F32.gtb v (F32.mul (trashhold self) m)) sample0.
Proof.
  unfold clean. intros -> H. cbn [Py.bind] in H. congruence.
Qed.

(** The path through the branch of the [if]. *)
Lemma prepare_sample_long (self : t) (sample : waveform)
  (sample0 c : list F32.t) (sample_rate : Z) :
  Py.getitem sample 0 = Py.Ok sample0 ->
  clean self sample0 = Py.Ok c ->
  (0 < number self sample_rate)%Q ->
  (number self sample_rate < inject_Z (Z.of_nat (length c)))%Q ->
  _prepare_sample self sample sample_rate
  = Py.Ok (map normalize (kept c (number self sample_rate))).
Proof.
  intros H0 Hc Hpos Hlong. unfold _prepare_sample.
  rewrite H0. cbn [Py.bind]. rewrite Hc. cbn [Py.bind].
  apply gt_spec in Hlong. rewrite Hlong.
  rewrite (floordiv_pos _ Hpos). cbn [Py.bind].
  pose proof (floor_quotient_nonneg Hpos (Nat2Z.is_nonneg (length c))) as Hq.
  rewrite tensor_split_ok by lia. cbn [Py.bind].
  destruct (getitem_last (l := Torch.narrow_all c
             (Torch.split_sizes (length c)
                (Z.to_nat (Qfloor (inject_Z (Z.of_nat (length c))
                                   / number self sample_rate) + 1)))))
    as [a Ha].
  - intros E. apply (f_equal (@length _)) in E.
    rewrite narrow_all_length, split_sizes_length in E.
    cbn [length] in E. lia.
  - rewrite Ha. reflexivity.
Qed.

(** The path around the branch of the [if]. *)
Lemma prepare_sample_short (self : t) (sample : waveform)
  (sample0 c : list F32.t) (sample_rate : Z) :
  Py.getitem sample 0 = Py.Ok sample0 ->
  clean self sample0 = Py.Ok c ->
  (inject_Z (Z.of_nat (length c)) <= number self sample_rate)%Q ->
  _prepare_sample self sample sample_rate
  = Py.Raise (Py.UnboundLocalError "samples").
Proof.
  intros H0 Hc Hshort. unfold _prepare_sample.
  rewrite H0. cbn [Py.bind]. rewrite Hc. cbn [Py.bind].
  destruct (gt _ _) eqn:E; [|reflexivity].
  apply gt_spec in E. exfalso. now apply (Qlt_not_le _ _ E).
Qed.

Lemma kept_count (c : list F32.t) (number0 : Q) :
  (0 < number0)%Q ->
  length (kept c number0)
  = Z.to_nat (Qfloor (inject_Z (Z.of_nat (length c)) / number0)).
Proof.
  intros Hpos. unfold kept.
  pose proof (floor_quotient_nonneg Hpos (Nat2Z.is_nonneg (length c))) as Hq.
  rewrite removelast_length, narrow_all_length, split_sizes_length. lia.
Qed.

Lemma kept_lengths (c : list F32.t) (number0 : Q) :
  (0 < number0)%Q ->
  map (@length _) (kept c number0)
  = removelast
      (Torch.split_sizes (length c)
         (Z.to_nat (Qfloor (inject_Z (Z.of_nat (length c)) / number0) + 1))).
Proof.
  intros Hpos. unfold kept.
  pose proof (floor_quotient_nonneg Hpos (Nat2Z.is_nonneg (length c))) as Hq.
  rewrite map_removelast, narrow_all_lengths; [reflexivity|].
  rewrite split_sizes_sum; lia.
Qed.

Lemma kept_length_cases (c ch : list F32.t) (number0 : Q) :
  (0 < number0)%Q -> In ch (kept c number0) ->
  length ch = length c / (length (kept c number0) + 1) \/
  length ch = length c / (length (kept c number0) + 1) + 1.
Proof.
  intros Hpos Hch.
  pose proof (floor_quotient_nonneg Hpos (Nat2Z.is_nonneg (length c))) as Hq.
  replace (length (kept c number0) + 1)
    with (Z.to_nat (Qfloor (inject_Z (Z.of_nat (length c)) / number0) + 1))
    by (rewrite (kept_count c Hpos); lia).
  apply split_sizes_values.
  apply In_removelast. rewrite <- (kept_lengths c Hpos).
  now apply in_map.
Qed.

(** The sign of the bound of the noise gate. *)

Lemma round_aux_sign (m e : Z) (l : location) :
  clear_or_nan (binary_round_aux F32.prec F32.emax false m e l).
Proof.
  unfold binary_round_aux.
  destruct (shr_fexp F32.prec F32.emax m e l) as [mrs' e'].
  destruct (shr_fexp F32.prec F32.emax _ e' loc_Exact) as [mrs'' e''].
  destruct (shr_m mrs''); [left; reflexivity| |right; reflexivity].
  destruct (e'' <=? F32.emax - F32.prec)%Z; left; reflexivity.
Qed.

Lemma mul_clear (a b : F32.t) :
  F32.sign_clear a = true -> clear_or_nan b -> clear_or_nan (F32.mul a b).
Proof.
  intros Ha [Hb| ->].
  - destruct a as [[]|[]| |[] ma ea]; try discriminate;
      destruct b as [[]|[]| |[] mb eb]; try discriminate;
      try (left; reflexivity); try (right; reflexivity).
    apply round_aux_sign.
  - right. destruct a; reflexivity.
Qed.

Lemma max2_cases (x y : F32.t) :
  F32.max2 x y = x \/ F32.max2 x y = y \/ F32.max2 x y = F32.nan.
Proof. unfold F32.max2. destruct (SFcompare x y) as [[]|]; auto. Qed.

Lemma fold_max2_cases (r : list F32.t) (x : F32.t) :
  fold_left F32.max2 r x = F32.nan \/ In (fold_left F32.max2 r x) (x :: r).
Proof.
  revert x. induction r as [|y r IH]; intros x; simpl.
  - auto.
  - destruct (IH (F32.max2 x y)) as [H|[H|H]].
    + now left.
    + rewrite <- H.
      destruct (max2_cases x y) as [E|[E|E]]; rewrite E; auto.
    + auto.
Qed.

Lemma max_abs_clear (w : list F32.t) (m : F32.t) :
  Torch.max (map F32.abs w) = Py.Ok m -> clear_or_nan m.
Proof.
  destruct w as [|x r]; [discriminate|]. simpl. intros H. injection H as <-.
  destruct (fold_max2_cases (map F32.abs r) (F32.abs x)) as [H|H].
  - now right.
  - change (F32.abs x :: map F32.abs r) with (map F32.abs (x :: r)) in H.
    apply in_map_iff in H. destruct H as [v [<- _]].
    destruct v as [s|s| |s mv ev]; [left|left|right|left]; reflexivity.
Qed.

Lemma gtb_clear (v b : F32.t) :
  clear_or_nan b -> F32.gtb v b = true ->
  F32.sign_clear v = true /\ F32.is_zero v = false.
Proof.
  intros [Hb| ->]; unfold F32.gtb.
  - destruct b as [[]|[]| |[] mb eb]; try discriminate;
      destruct v as [[]|[]| |[] mv ev]; simpl; try discriminate; auto.
  - destruct v; discriminate.
Qed.

Lemma fold_max2_nan (r : list F32.t) :
  fold_left F32.max2 r F32.nan = F32.nan.
Proof. induction r as [|z r IH]; [reflexivity|]. simpl. exact IH. Qed.

Lemma max2_nan_r (x : F32.t) : F32.max2 x F32.nan = F32.nan.
Proof. destruct x; reflexivity. Qed.

Lemma fold_max2_absorbs (r : list F32.t) (x : F32.t) :
  In F32.nan r -> fold_left F32.max2 r x = F32.nan.
Proof.
  revert x. induction r as [|y r IH]; intros x; simpl; [tauto|].
  intros [->|H].
  - rewrite max2_nan_r. apply fold_max2_nan.
  - now apply IH.
Qed.

End SegmenterFacts.

(** * The segmenter: [SincNetDataset._prepare_sample] *)

Module Segmenter.
Import SincNetDataset Notions Examples.
Import F32Facts TorchFacts PyFacts SegmenterFacts.

(** ** The noise gate *)

(** C3, as the code has it.  With [bound = trashhold * max |sample|]: every
    retained sample is a sample of the recording whose absolute amplitude is
    strictly above the bound; every sample whose absolute amplitude is at
    most the bound is discarded, the sample exactly at the bound included;
    and every sample with a clear sign bit whose amplitude is strictly above
    the bound is retained. *)
Theorem clean_strict_gate (self : t) (sample0 c : list F32.t) (m : F32.t) :
  Torch.max (map F32.abs sample0) = Py.Ok m ->
  clean self sample0 = Py.Ok c ->
  (forall v, In v c ->
     In v sample0 /\ F32.gtb (F32.abs v) (F32.mul (trashhold self) m) = true)
  /\ (forall v, In v sample0 ->
       SFleb (F32.abs v) (F32.mul (trashhold self) m) = true -> ~ In v c)
  /\ (forall v, In v sample0 -> F32.sign_clear v = true ->
       F32.gtb (F32.abs v) (F32.mul (trashhold self) m) = true -> In v c).
Proof.
  intros Hm Hc. rewrite (clean_inv _ _ Hm Hc). split; [|split].
  - intros v Hv. apply filter_In in Hv. destruct Hv as [Hin Hgt].
    split; [exact Hin|now apply gtb_abs].
  - intros v Hv Hle Hin. apply filter_In in Hin.
    rewrite (leb_abs_not_gtb _ _ Hle) in Hin. now destruct Hin.
  - intros v Hv Hs Hgt. apply filter_In. split; [exact Hv|].
    now rewrite (abs_sign_clear _ Hs) in Hgt.
Qed.

Lemma clean_strict_gate_witness :
  Torch.max (map F32.abs edge) = Py.Ok (F32.of_Z 100) /\
  clean dataset edge = Py.Ok [F32.of_Z 100] /\
  ~ In (F32.of_Z 1) [F32.of_Z 100].
Proof.
  assert (Hm : Torch.max (map F32.abs edge) = Py.Ok (F32.of_Z 100))
    by (vm_compute; reflexivity).
  assert (Hc : clean dataset edge = Py.Ok [F32.of_Z 100])
    by (vm_compute; reflexivity).
  split; [exact Hm|]. split; [exact Hc|].
  apply (proj1 (proj2 (clean_strict_gate dataset edge Hm Hc))).
  - vm_compute. auto.
  - vm_compute. reflexivity.
Defined.

(** C3, as stated, fails: with the default threshold 0.01 and the samples
    1.0 and 100.0 the bound is 1.0; the specification keeps both samples,
    the code drops the sample that sits on the bound. *)
Lemma clean_drops_sample_at_bound :
  clean dataset edge = Py.Ok [F32.of_Z 100] /\
  Spec.denoise (trashhold dataset) edge = Py.Ok [F32.of_Z 1; F32.of_Z 100] /\
  clean dataset edge <> Spec.denoise (trashhold dataset) edge.
Proof.
  repeat split; try (vm_compute; reflexivity).
  vm_compute. discriminate.
Qed.

(** X7.  When the threshold has a clear sign bit (it is not negative), the
    gate keeps no sample that is negative or zero: every retained sample has
    a clear sign bit and is not a zero. *)
Theorem clean_keeps_only_positive (self : t) (sample0 c : list F32.t) :
  F32.sign_clear (trashhold self) = true ->
  clean self sample0 = Py.Ok c ->
  forall v, In v c -> F32.sign_clear v = true /\ F32.is_zero v = false.
Proof.
  intros Ht Hc v Hv.
  destruct (Torch.max (map F32.abs sample0)) as [m|e] eqn:Hm.
  - rewrite (clean_inv _ _ Hm Hc) in Hv. apply filter_In in Hv.
    destruct Hv as [_ Hgt].
    apply (@gtb_clear v _ (mul_clear _ Ht (max_abs_clear _ Hm)) Hgt).
  - unfold clean in Hc. rewrite Hm in Hc. discriminate.
Qed.

Lemma clean_keeps_only_positive_witness :
  clean dataset mixed = Py.Ok (map F32.of_Z [2; 5]%Z) /\
  F32.sign_clear (F32.of_Z 2) = true /\ F32.is_zero (F32.of_Z 2) = false.
Proof.
  assert (Ht : F32.sign_clear (trashhold dataset) = true)
    by (vm_compute; reflexivity).
  assert (Hc : clean dataset mixed = Py.Ok (map F32.of_Z [2; 5]%Z))
    by (vm_compute; reflexivity).
  split; [exact Hc|].
  apply (clean_keeps_only_positive dataset mixed Ht Hc).
  vm_compute. auto.
Defined.

(** X8.  One not-a-number among the samples empties the recording: the
    maximum and the bound are then not numbers, and no comparison holds. *)
Theorem clean_nan_discards_all (self : t) (sample0 : list F32.t) :
  In F32.nan sample0 -> clean self sample0 = Py.Ok [].
Proof.
  intros Hn. unfold clean.
  assert (Hm : Torch.max (map F32.abs sample0) = Py.Ok F32.nan).
  { destruct sample0 as [|x r]; [contradiction|]. simpl.
    destruct Hn as [->|Hn].
    - simpl. now rewrite fold_max2_nan.
    - rewrite fold_max2_absorbs; [reflexivity|].
      change F32.nan with (F32.abs F32.nan). now apply in_map. }
  rewrite Hm. cbn [Py.bind]. f_equal.
  replace (F32.mul (trashhold self) F32.nan) with F32.nan
    by (destruct (trashhold self); reflexivity).
  clear. induction sample0 as [|y r IH]; [reflexivity|]. simpl.
  replace (F32.gtb y F32.nan) with false by (destruct y; reflexivity).
  exact IH.
Qed.

Lemma clean_nan_discards_all_witness : clean dataset broken = Py.Ok [].
Proof.
  apply (clean_nan_discards_all dataset broken).
  vm_compute. auto.
Defined.

(** ** Splitting *)

(** C2 fails on the code.  Seven denoised samples with
    [wavetime * sample_rate = 3]: two segments come back, as the claim
    says, but their lengths are 3 and 2, not 3 and 3.  [tensor_split] is
    given a number of sections, not a section length. *)
Theorem prepare_sample_uneven_segments :
  (number dataset 15 == 3)%Q /\
  clean dataset ramp = Py.Ok ramp /\
  exists segs, _prepare_sample dataset [ramp] 15 = Py.Ok segs /\
               map (@length _) segs = [3; 2].
Proof.
  split; [reflexivity|]. split; [vm_compute; reflexivity|].
  eexists. split; vm_compute; reflexivity.
Qed.

(** C4 fails on the code.  Two denoised samples with
    [wavetime * sample_rate = 3]: the branch that assigns [samples] is
    skipped, and the loop after it reads a variable that was never bound. *)
Theorem prepare_sample_short_unbound :
  clean dataset (ones 2) = Py.Ok (ones 2) /\
  (inject_Z (Z.of_nat (length (ones 2))) <= number dataset 15)%Q /\
  _prepare_sample dataset [ones 2] 15
  = Py.Raise (Py.UnboundLocalError "samples").
Proof.
  split; [vm_compute; reflexivity|].
  split; [vm_compute; discriminate|].
  apply (@prepare_sample_short dataset [ones 2] (ones 2) (ones 2) 15%Z);
    vm_compute; (reflexivity || discriminate).
Qed.



(** X2.  The segments are the sections of an even split into one section
    more than is kept: with [k] segments returned out of [len] denoised
    samples, every segment holds [len / (k + 1)] samples or one more. *)
Theorem prepare_sample_lengths (self : t) (sample : waveform)
  (sample0 c : list F32.t) (sample_rate : Z) (segs : list (list F32.t)) :
  Py.getitem sample 0 = Py.Ok sample0 ->
  clean self sample0 = Py.Ok c ->
  (0 < number self sample_rate)%Q ->
  (number self sample_rate < inject_Z (Z.of_nat (length c)))%Q ->
  _prepare_sample self sample sample_rate = Py.Ok segs ->
  forall s, In s segs ->
    length s = length c / (length segs + 1) \/
    length s = length c / (length segs + 1) + 1.
Proof.
  intros H0 Hc Hpos Hlong Hs.
  rewrite (@prepare_sample_long self sample sample0 c sample_rate
             H0 Hc Hpos Hlong) in Hs.
  injection Hs as <-. intros s Hin.
  apply in_map_iff in Hin. destruct Hin as [ch [<- Hch]].
  unfold normalize at 1 3. rewrite !length_map.
  now apply kept_length_cases.
Qed.

Lemma prepare_sample_lengths_witness :
  Forall (fun s => length s = 7 / (2 + 1) \/ length s = 7 / (2 + 1) + 1)
         (map normalize (kept ramp (number dataset 15))).
Proof.
  apply Forall_forall.
  apply (@prepare_sample_lengths dataset [ramp] ramp ramp 15%Z);
    vm_compute; reflexivity.
Defined.

(** X3.  When [wavetime * sample_rate] is a whole number [n0], no segment
    is longer than [n0]. *)
Theorem prepare_sample_at_most_number (self : t) (sample : waveform)
  (sample0 c : list F32.t) (sample_rate n0 : Z) (segs : list (list F32.t)) :
  Py.getitem sample 0 = Py.Ok sample0 ->
  clean self sample0 = Py.Ok c ->
  (number self sample_rate == inject_Z n0)%Q ->
  (0 < n0 < Z.of_nat (length c))%Z ->
  _prepare_sample self sample sample_rate = Py.Ok segs ->
  forall s, In s segs -> (Z.of_nat (length s) <= n0)%Z.
Proof.
  intros H0 Hc Hn [Hn0 Hlen] Hs s Hin.
  assert (Hpos : (0 < number self sample_rate)%Q).
  { rewrite Hn. change 0%Q with (inject_Z 0). now rewrite <- Zlt_Qlt. }
  assert (Hlong : (number self sample_rate
                   < inject_Z (Z.of_nat (length c)))%Q).
  { rewrite Hn. now rewrite <- Zlt_Qlt. }
  rewrite (@prepare_sample_long self sample sample0 c sample_rate
             H0 Hc Hpos Hlong) in Hs.
  injection Hs as <-.
  apply in_map_iff in Hin. destruct Hin as [ch [<- Hch]].
  unfold normalize. rewrite length_map.
  pose proof (kept_length_cases c ch Hpos Hch) as Hl.
  pose proof (kept_count c Hpos) as Hcount.
  rewrite (floor_integral _ Hn) in Hcount.
  pose proof (Z.div_pos (Z.of_nat (length c)) n0 ltac:(lia) Hn0) as Hdiv.
  assert (Hq : (Z.of_nat (length c
                          / (length (kept c (number self sample_rate)) + 1))
                < n0)%Z).
  { rewrite Nat2Z.inj_div. apply Z.div_lt_upper_bound; [lia|].
    pose proof (Z.mul_succ_div_gt (Z.of_nat (length c)) n0 Hn0) as Hm.
    rewrite Hcount. nia. }
  lia.
Qed.

Lemma prepare_sample_at_most_number_witness :
  Forall (fun s => (Z.of_nat (length s) <= 3)%Z)
         (map normalize (kept ramp (number dataset 15))).
Proof.
  apply Forall_forall.
  apply (@prepare_sample_at_most_number dataset [ramp] ramp ramp 15%Z 3%Z);
    try (vm_compute; reflexivity).
  simpl. lia.
Defined.

(** X4.  Splitting keeps the order and loses only the tail: the segments
    are the normalised chunks of the denoised recording, and the chunks, in
    order, followed by the dropped last section, are the denoised recording
    itself.  The dropped section holds [len / (k + 1)] samples. *)
Theorem prepare_sample_partition (self : t) (sample : waveform)
  (sample0 c : list F32.t) (sample_rate : Z) :
  Py.getitem sample 0 = Py.Ok sample0 ->
  clean self sample0 = Py.Ok c ->
  (0 < number self sample_rate)%Q ->
  (number self sample_rate < inject_Z (Z.of_nat (length c)))%Q ->
  exists chunks last_sample,
    _prepare_sample self sample sample_rate = Py.Ok (map normalize chunks) /\
    c = concat chunks ++ last_sample /\
    length last_sample = length c / (length chunks + 1).
Proof.
  intros H0 Hc Hpos Hlong.
  pose proof (floor_quotient_nonneg Hpos (Nat2Z.is_nonneg (length c))) as Hq.
  set (k := Z.to_nat (Qfloor (inject_Z (Z.of_nat (length c))
                              / number self sample_rate) + 1)).
  assert (Hk : 0 < k) by (unfold k; lia).
  set (P := Torch.narrow_all c (Torch.split_sizes (length c) k)).
  assert (HP : P <> []).
  { intros E. apply (f_equal (@length _)) in E. unfold P in E.
    rewrite narrow_all_length, split_sizes_length in E. simpl in E. lia. }
  exists (removelast P), (last P []). split; [|split].
  - now apply prepare_sample_long with (sample0 := sample0).
  - rewrite <- (app_nil_r (last P [])).
    change (last P [] ++ []) with (concat [last P []]).
    rewrite <- concat_app, <- app_removelast_last by exact HP.
    unfold P. symmetry. apply narrow_all_concat.
    now apply split_sizes_sum.
  - pose proof (last_map (@length F32.t) P []) as HL.
    cbn [length] in HL. rewrite <- HL.
    unfold P at 1. rewrite narrow_all_lengths
      by (rewrite split_sizes_sum by exact Hk; lia).
    rewrite split_sizes_last by exact Hk.
    rewrite removelast_length. unfold P.
    rewrite narrow_all_length, split_sizes_length.
    f_equal. lia.
Qed.

Lemma prepare_sample_partition_witness :
  exists chunks last_sample,
    _prepare_sample dataset [ramp] 15 = Py.Ok (map normalize chunks) /\
    ramp = concat chunks ++ last_sample /\
    length last_sample = 7 / (length chunks + 1).
Proof.
  apply (@prepare_sample_partition dataset [ramp] ramp ramp 15%Z);
    vm_compute; reflexivity.
Defined.





(** X22.  Input without samples: a waveform without a channel raises
    [IndexError], and an empty first channel raises the [RuntimeError] of
    [torch.max], whatever the other channels hold. *)
Theorem prepare_sample_empty_input (self : t) (rest : waveform)
  (sample_rate : Z) :
  _prepare_sample self [] sample_rate = Py.Raise Py.IndexError /\
  _prepare_sample self ([] :: rest) sample_rate = Py.Raise Py.RuntimeError.
Proof.
  split.
  - reflexivity.
  - unfold _prepare_sample.
    replace (Py.getitem ([] :: rest) 0) with (@Py.Ok (list F32.t) []).
    + reflexivity.
    + unfold Py.getitem. cbn [length].
      change (0 <? 0)%Z with false. cbv iota.
      change (0 <=? 0)%Z with true.
      replace (0 <? Z.of_nat (S (length rest)))%Z with true
        by (symmetry; apply Z.ltb_lt; lia).
      reflexivity.
Qed.

(** ** Normalisation *)

(** C8, as the code has it.  Normalising a chunk whose standard deviation
    is zero raises nothing: the chunk keeps its length, and every entry is
    the quotient of a float by zero, a not-a-number or an infinity. *)
Theorem normalize_zero_std (s : list F32.t) :
  F32.is_zero (Torch.std s) = true ->
  length (normalize s) = length s /\
  forall v, In v (normalize s) -> F32.is_nan v = true \/ F32.is_inf v = true.
Proof.
  intros Hz. unfold normalize. split; [apply length_map|].
  intros v Hv. apply in_map_iff in Hv. destruct Hv as [x [<- _]].
  now apply div_zero.
Qed.

Lemma normalize_zero_std_witness :
  F32.is_zero (Torch.std (ones 3)) = true /\
  length (normalize (ones 3)) = 3 /\
  normalize (ones 3) = [F32.nan; F32.nan; F32.nan].
Proof.
  assert (Hz : F32.is_zero (Torch.std (ones 3)) = true)
    by (vm_compute; reflexivity).
  split; [exact Hz|]. split.
  - exact (proj1 (normalize_zero_std (ones 3) Hz)).
  - vm_compute. reflexivity.
Defined.

(** C8, as stated, fails: seven equal samples give two constant chunks, and
    [_prepare_sample] returns them filled with not-a-numbers; no exception
    is raised. *)
Lemma prepare_sample_constant_returns_nan :
  _prepare_sample dataset [ones 7] 15
  = Py.Ok [[F32.nan; F32.nan; F32.nan]; [F32.nan; F32.nan]].
Proof. vm_compute. reflexivity. Qed.

End Segmenter.

(** ** Sorting and label encoding: auxiliary facts *)

Module DatasetFacts.
Import SincNetDataset.
Import PyFacts.

Lemma insert_sorted_perm (A : Type) (leb : A -> A -> bool) (x : A)
  (l : list A) :
  Permutation (x :: l) (Py.insert_sorted leb x l).
Proof.
  induction l as [|y r IH]; simpl; [reflexivity|].
  destruct (leb y x); [|reflexivity].
  rewrite perm_swap. now apply perm_skip.
Qed.

Lemma fold_insert_perm (A : Type) (leb : A -> A -> bool) (l acc : list A) :
  Permutation (l ++ acc)
    (fold_left (fun a x => Py.insert_sorted leb x a) l acc).
Proof.
  revert acc. induction l as [|x r IH]; intros acc; simpl; [reflexivity|].
  rewrite <- IH. rewrite <- insert_sorted_perm.
  apply Permutation_middle.
Qed.

Lemma sorted_perm (A : Type) (leb : A -> A -> bool) (l : list A) :
  Permutation l (Py.sorted leb l).
Proof.
  unfold Py.sorted. rewrite <- fold_insert_perm. now rewrite app_nil_r.
Qed.

Section Sorting.

Variable A : Type.
Variable leb : A -> A -> bool.
Hypothesis leb_total : forall x y, leb x y = false -> leb y x = true.

Lemma insert_sorted_hd (x a : A) (l : list A) :
  leb a x = true -> HdRel (fun u v => leb u v = true) a l ->
  HdRel (fun u v => leb u v = true) a (Py.insert_sorted leb x l).
Proof.
  intros Hax H. destruct l as [|y r]; simpl.
  - now constructor.
  - inversion H; subst. destruct (leb y x); now constructor.
Qed.

Lemma insert_sorted_Sorted (x : A) (l : list A) :
  Sorted (fun u v => leb u v = true) l ->
  Sorted (fun u v => leb u v = true) (Py.insert_sorted leb x l).
Proof.
  induction 1 as [|y r Hs IH Hhd]; simpl.
  - repeat constructor.
  - destruct (leb y x) eqn:E.
    + constructor; [exact IH|]. now apply insert_sorted_hd.
    + constructor; [now constructor|]. constructor. now apply leb_total.
Qed.

Lemma fold_insert_Sorted (l acc : list A) :
  Sorted (fun u v => leb u v = true) acc ->
  Sorted (fun u v => leb u v = true)
    (fold_left (fun a x => Py.insert_sorted leb x a) l acc).
Proof.
  revert acc. induction l as [|x r IH]; intros acc H; simpl; [exact H|].
  apply IH. now apply insert_sorted_Sorted.
Qed.

Lemma sorted_Sorted (l : list A) :
  Sorted (fun u v => leb u v = true) (Py.sorted leb l).
Proof. apply fold_insert_Sorted. constructor. Qed.

End Sorting.

Lemma path_leb_total (p q : Path) :
  path_leb p q = false -> path_leb q p = true.
Proof.
  revert q. induction p as [|a p IH]; intros [|b q]; simpl; try congruence.
  rewrite (String.compare_antisym b a).
  destruct (String.compare a b); simpl; try congruence. apply IH.
Qed.

Lemma contains_spec (x : string) (l : list string) :
  Py.contains x l = true <-> In x l.
Proof.
  unfold Py.contains. rewrite existsb_exists. split.
  - intros [y [Hy E]]. apply String.eqb_eq in E. now subst.
  - intros H. exists x. split; [exact H|apply String.eqb_refl].
Qed.

Lemma index_of_nth (x : string) (l : list string) (i : nat) :
  LabelEncoder.index_of x l = Some i -> nth_error l i = Some x.
Proof.
  revert i. induction l as [|c r IH]; intros i; simpl; [discriminate|].
  destruct (String.eqb x c) eqn:E.
  - intros H. injection H as <-. apply String.eqb_eq in E. now subst.
  - destruct (LabelEncoder.index_of x r) as [j|]; [|discriminate].
    simpl. intros H. injection H as <-. simpl. now apply IH.
Qed.

Lemma index_of_In (x : string) (l : list string) :
  In x l <-> exists i, LabelEncoder.index_of x l = Some i.
Proof.
  split.
  - induction l as [|c r IH]; simpl; [tauto|].
    intros H. destruct (String.eqb x c) eqn:E; [now exists 0|].
    destruct H as [->|H]; [rewrite String.eqb_refl in E; discriminate|].
    destruct (IH H) as [i ->]. now exists (S i).
  - intros [i H]. apply index_of_nth in H. now apply nth_error_In in H.
Qed.

Lemma fit_classes (y : list string) (x : string) :
  In x (LabelEncoder.classes_ (LabelEncoder.fit y)) <-> In x y.
Proof.
  unfold LabelEncoder.fit. cbn [LabelEncoder.classes_].
  rewrite nodup_In. split; intros H.
  - eapply Permutation_in; [symmetry; apply sorted_perm|exact H].
  - eapply Permutation_in; [apply sorted_perm|exact H].
Qed.

Lemma encode_seen (y : list string) (x : string) :
  In x y ->
  exists i, LabelEncoder.encode (LabelEncoder.fit y) x = Py.Ok (Z.of_nat i) /\
            nth_error (LabelEncoder.classes_ (LabelEncoder.fit y)) i = Some x.
Proof.
  unfold LabelEncoder.encode. intros H.
  apply fit_classes, index_of_In in H. destruct H as [i Hi].
  exists i. rewrite Hi. split; [reflexivity|now apply index_of_nth].
Qed.

Lemma encode_same (self : LabelEncoder.t) (a b : string) (i : Z) :
  LabelEncoder.encode self a = Py.Ok i ->
  LabelEncoder.encode self b = Py.Ok i -> a = b.
Proof.
  unfold LabelEncoder.encode.
  destruct (LabelEncoder.index_of a _) as [ia|] eqn:Ea; [|discriminate].
  destruct (LabelEncoder.index_of b _) as [ib|] eqn:Eb; [|discriminate].
  intros Ha Hb. injection Ha as <-. injection Hb as Hb.
  apply Nat2Z.inj in Hb. subst ib.
  apply index_of_nth in Ea, Eb. congruence.
Qed.

Lemma FloatTensor_repeat (z : Z) (k : nat) :
  FloatTensor (repeat z k) = repeat (F32.of_Z z) k.
Proof. unfold FloatTensor. apply map_repeat. Qed.

(** The fields of a constructed dataset. *)
Lemma init_fields (files0 : list Path) (mode0 : string) (wavetime0 : Q)
  (trashhold0 : F32.t) (self : t) :
  __init__ files0 mode0 wavetime0 trashhold0 = Py.Ok self ->
  files self = Py.sorted path_leb files0 /\
  mode self = mode0 /\
  (mode0 <> "test"%string ->
   labels self = Some (map parent_name (files self)) /\
   label_encoder self = LabelEncoder.fit (map parent_name (files self))) /\
  (mode0 = "test"%string ->
   labels self = None /\ label_encoder self = LabelEncoder.new).
Proof.
  unfold __init__.
  destruct (negb (Py.contains mode0 DATA_MODES)); [discriminate|].
  destruct (String.eqb mode0 "test") eqn:E; simpl; intros H; injection H as <-;
    cbn [labels label_encoder files mode]; repeat split;
    try (intros Hm; exfalso);
    try (apply String.eqb_eq in E; contradiction);
    try (apply String.eqb_neq in E; contradiction).
Qed.

Lemma getitem_out_of_range (A : Type) (l : list A) (index : Z) :
  (Z.of_nat (length l) <= index \/ index < - Z.of_nat (length l))%Z ->
  Py.getitem l index = Py.Raise Py.IndexError.
Proof.
  intros H. unfold Py.getitem.
  destruct (index <? 0)%Z eqn:E.
  - apply Z.ltb_lt in E.
    destruct ((0 <=? index + _)%Z && _)%bool eqn:B; [|reflexivity].
    apply andb_prop in B. destruct B as [B1 B2]. apply Z.leb_le in B1. lia.
  - apply Z.ltb_ge in E.
    destruct ((0 <=? index)%Z && _)%bool eqn:B; [|reflexivity].
    apply andb_prop in B. destruct B as [B1 B2]. apply Z.ltb_lt in B2. lia.
Qed.

End DatasetFacts.

(** * The dataset: [SincNetDataset.__init__] and [__getitem__] *)

Module Dataset.
Import SincNetDataset Examples.
Import PyFacts SegmenterFacts DatasetFacts.

(** X9.  The constructor accepts the three modes of [DATA_MODES] and raises
    [NameError] for every other mode. *)
Theorem init_checks_mode (files0 : list Path) (mode0 : string) (wavetime0 : Q)
  (trashhold0 : F32.t) :
  (In mode0 DATA_MODES ->
   Py.is_ok (__init__ files0 mode0 wavetime0 trashhold0) = true) /\
  (~ In mode0 DATA_MODES ->
   __init__ files0 mode0 wavetime0 trashhold0
   = Py.Raise (Py.NameError EmptyString)).
Proof.
  unfold __init__. split; intros H.
  - apply contains_spec in H. rewrite H. simpl.
    destruct (negb (String.eqb mode0 "test")); reflexivity.
  - destruct (Py.contains mode0 DATA_MODES) eqn:E; [|reflexivity].
    apply contains_spec in E. contradiction.
Qed.

Lemma init_checks_mode_witness :
  Py.is_ok (__init__ paths "val" (1 # 5) threshold) = true /\
  __init__ paths "dev" (1 # 5) threshold
  = Py.Raise (Py.NameError EmptyString).
Proof.
  split.
  - apply (proj1 (init_checks_mode paths "val" (1 # 5) threshold)).
    simpl. auto.
  - apply (proj2 (init_checks_mode paths "dev" (1 # 5) threshold)).
    simpl. intros [H|[H|[H|[]]]]; discriminate.
Defined.

(** X10.  A constructed dataset holds the files it was given, in increasing
    order of their paths; its length is the number of files, and the
    duration, the threshold and the mode are the arguments. *)
Theorem init_sorts_files (files0 : list Path) (mode0 : string) (wavetime0 : Q)
  (trashhold0 : F32.t) (self : t) :
  __init__ files0 mode0 wavetime0 trashhold0 = Py.Ok self ->
  Permutation files0 (files self) /\
  Sorted (fun p q => path_leb p q = true) (files self) /\
  __len__ self = length files0 /\
  wavetime self = wavetime0 /\ trashhold self = trashhold0 /\
  mode self = mode0.
Proof.
  unfold __init__.
  destruct (negb (Py.contains mode0 DATA_MODES)); [discriminate|].
  assert (Hlen : length (Py.sorted path_leb files0) = length files0)
    by (symmetry; apply Permutation_length, sorted_perm).
  destruct (negb (String.eqb mode0 "test")); intros H; injection H as <-;
    unfold __len__; cbn [files len_ wavetime trashhold mode];
    repeat split; try apply sorted_perm; try exact Hlen;
    apply sorted_Sorted; exact path_leb_total.
Qed.

Lemma init_sorts_files_witness :
  Permutation paths (files dataset) /\
  Sorted (fun p q => path_leb p q = true) (files dataset) /\
  __len__ dataset = 2.
Proof.
  assert (H : __init__ paths "train" (1 # 5) threshold = Py.Ok dataset)
    by (vm_compute; reflexivity).
  destruct (init_sorts_files paths "train" (1 # 5) threshold H)
    as (H1 & H2 & H3 & _).
  exact (conj H1 (conj H2 H3)).
Defined.

(** X11.  In a dataset constructed in train or val mode, two files have the
    same label id exactly when they lie in directories of the same name. *)
Theorem label_ids_agree (files0 : list Path) (mode0 : string) (wavetime0 : Q)
  (trashhold0 : F32.t) (self : t) (i j : Z) (fi fj : Path) :
  __init__ files0 mode0 wavetime0 trashhold0 = Py.Ok self ->
  mode0 <> "test"%string ->
  Py.getitem (files self) i = Py.Ok fi ->
  Py.getitem (files self) j = Py.Ok fj ->
  exists a b,
    LabelEncoder.encode (label_encoder self) (parent_name fi) = Py.Ok a /\
    LabelEncoder.encode (label_encoder self) (parent_name fj) = Py.Ok b /\
    (a = b <-> parent_name fi = parent_name fj).
Proof.
  intros Hinit Hmode Hi Hj.
  destruct (init_fields _ _ _ _ Hinit) as (_ & _ & Hl & _).
  destruct (Hl Hmode) as [_ Henc]. rewrite Henc.
  assert (Hin : forall k f, Py.getitem (files self) k = Py.Ok f ->
                            In (parent_name f) (map parent_name (files self))).
  { intros k f Hf. apply in_map.
    destruct (getitem_inv _ _ Hf) as [n0 [_ [Hn _]]].
    now apply nth_error_In in Hn. }
  destruct (encode_seen _ _ (Hin _ _ Hi)) as [a [Ha _]].
  destruct (encode_seen _ _ (Hin _ _ Hj)) as [b [Hb _]].
  exists (Z.of_nat a), (Z.of_nat b). split; [exact Ha|]. split; [exact Hb|].
  split.
  - intros E. rewrite <- E in Hb. exact (encode_same _ _ _ Ha Hb).
  - intros E. rewrite E in Ha. congruence.
Qed.

Lemma label_ids_agree_witness :
  exists a b,
    LabelEncoder.encode (label_encoder dataset) "a" = Py.Ok a /\
    LabelEncoder.encode (label_encoder dataset) "b" = Py.Ok b /\
    (a = b <-> "a"%string = "b"%string).
Proof.
  apply (@label_ids_agree paths "train" (1 # 5) threshold dataset 0%Z 1%Z
           ["a"%string; "1.flac"%string] ["b"%string; "2.flac"%string]).
  - vm_compute. reflexivity.
  - discriminate.
  - reflexivity.
  - reflexivity.
Defined.

Section Loaded.

Variable torchaudio_load : Path -> Py.result (waveform * Z).

(** X12.  In a dataset constructed in train or val mode, whenever the
    segmenter returns [x] for the file at [index], [__getitem__] returns the
    triple [(x, f, y)]: [f] repeats the sample rate of the file once per
    segment, and [y] repeats the position of the name of the directory of the
    file among the classes of the encoder. *)
Theorem getitem_labelled (files0 : list Path) (mode0 : string) (wavetime0 : Q)
  (trashhold0 : F32.t) (self : t) (index : Z) (file : Path) (w : waveform)
  (sample_rate : Z) (x : list (list F32.t)) :
  __init__ files0 mode0 wavetime0 trashhold0 = Py.Ok self ->
  mode0 <> "test"%string ->
  Py.getitem (files self) index = Py.Ok file ->
  torchaudio_load file = Py.Ok (w, sample_rate) ->
  _prepare_sample self w sample_rate = Py.Ok x ->
  exists id,
    nth_error (LabelEncoder.classes_ (label_encoder self)) id
    = Some (parent_name file) /\
    __getitem__ torchaudio_load self index
    = Py.Ok (Triple x (repeat (F32.of_Z sample_rate) (length x))
                      (repeat (F32.of_Z (Z.of_nat id)) (length x))).
Proof.
  intros Hinit Hmode Hfile Hload Hx.
  destruct (init_fields _ _ _ _ Hinit) as (_ & Hm & Hl & _).
  destruct (Hl Hmode) as [Hlabels Henc]. clear Hl.
  assert (Hin : In (parent_name file) (map parent_name (files self))).
  { apply in_map. destruct (getitem_inv _ _ Hfile) as [i [_ [Hn _]]].
    now apply nth_error_In in Hn. }
  destruct (encode_seen _ _ Hin) as [id [He Hn]].
  exists id. split; [now rewrite Henc|].
  unfold __getitem__, load_sample.
  rewrite Hfile. cbn [Py.bind]. rewrite Hload. cbn [Py.bind].
  rewrite Hx. cbn [Py.bind].
  rewrite Hm. apply String.eqb_neq in Hmode. rewrite Hmode.
  rewrite Hlabels. cbn [Py.attr Py.bind].
  rewrite (getitem_map parent_name _ _ Hfile). cbn [Py.bind].
  cbn [LabelEncoder.transform]. rewrite Henc, He.
  cbn [Py.bind LabelEncoder.item]. now rewrite !FloatTensor_repeat.
Qed.

(** X13.  In a dataset constructed in test mode, whenever the segmenter
    returns [x], [__getitem__] returns the pair [(x, f)] and reads no
    label. *)
Theorem getitem_test_pair (files0 : list Path) (wavetime0 : Q)
  (trashhold0 : F32.t) (self : t) (index : Z) (file : Path) (w : waveform)
  (sample_rate : Z) (x : list (list F32.t)) :
  __init__ files0 "test" wavetime0 trashhold0 = Py.Ok self ->
  Py.getitem (files self) index = Py.Ok file ->
  torchaudio_load file = Py.Ok (w, sample_rate) ->
  _prepare_sample self w sample_rate = Py.Ok x ->
  __getitem__ torchaudio_load self index
  = Py.Ok (Pair x (repeat (F32.of_Z sample_rate) (length x))).
Proof.
  intros Hinit Hfile Hload Hx.
  destruct (init_fields _ _ _ _ Hinit) as (_ & Hm & _).
  unfold __getitem__, load_sample.
  rewrite Hfile. cbn [Py.bind]. rewrite Hload. cbn [Py.bind].
  rewrite Hx. cbn [Py.bind]. rewrite Hm.
  now rewrite FloatTensor_repeat.
Qed.

(** X14.  An index outside [-len, len) raises [IndexError] before any file
    is read. *)
Theorem getitem_index_error (self : t) (index : Z) :
  (Z.of_nat (length (files self)) <= index
   \/ index < - Z.of_nat (length (files self)))%Z ->
  __getitem__ torchaudio_load self index = Py.Raise Py.IndexError.
Proof.
  intros H. unfold __getitem__.
  now rewrite (@getitem_out_of_range _ (files self) index H).
Qed.


End Loaded.

Lemma getitem_labelled_witness :
  exists id,
    nth_error (LabelEncoder.classes_ (label_encoder dataset)) id
    = Some "b"%string /\
    exists x,
      __getitem__ ramp_disk dataset (-1)
      = Py.Ok (Triple x (repeat (F32.of_Z 15) (length x))
                        (repeat (F32.of_Z (Z.of_nat id)) (length x))).
Proof.
  destruct (@getitem_labelled ramp_disk paths "train" (1 # 5) threshold
              dataset (-1)%Z ["b"%string; "2.flac"%string] [ramp] 15%Z
              (map normalize (Notions.kept ramp (number dataset 15))))
    as [id [H1 H2]].
  - vm_compute. reflexivity.
  - discriminate.
  - reflexivity.
  - reflexivity.
  - vm_compute. reflexivity.
  - exists id. split; [exact H1|]. eexists. exact H2.
Defined.

Lemma getitem_test_pair_witness :
  exists x,
    __getitem__ ramp_disk test_dataset 0
    = Py.Ok (Pair x (repeat (F32.of_Z 15) (length x))).
Proof.
  eexists.
  apply (@getitem_test_pair ramp_disk paths (1 # 5) threshold test_dataset
           0%Z ["a"%string; "1.flac"%string] [ramp] 15%Z
           (map normalize (Notions.kept ramp (number test_dataset 15))));
    vm_compute; reflexivity.
Defined.

Lemma getitem_index_error_witness :
  __getitem__ ramp_disk dataset 2 = Py.Raise Py.IndexError /\
  __getitem__ ramp_disk dataset (-3) = Py.Raise Py.IndexError.
Proof.
  split; apply (getitem_index_error ramp_disk dataset); simpl; lia.
Defined.


(** C10 fails on the code.  A train dataset over a recording of two samples
    at 16 kHz, with segments of 0.2 s: [__getitem__(0)] returns no triple;
    the segmenter raises [UnboundLocalError], and [__getitem__] with it. *)
Theorem getitem_short_recording_raises :
  __init__ paths "train" (1 # 5) threshold = Py.Ok dataset /\
  __getitem__ disk dataset 0 = Py.Raise (Py.UnboundLocalError "samples").
Proof. split; vm_compute; reflexivity. Qed.

End Dataset.

(** ** The sinc layer: auxiliary facts *)

Module CustomFacts.
Import TorchR Custom Examples.
Local Open Scope R_scope.


Lemma sinc_nonzero (x : R) : x <> 0 -> sinc x = sin (PI * x) / (PI * x).
Proof. intros H. unfold sinc. destruct (Req_dec_T x 0); [contradiction|reflexivity]. Qed.

Lemma spec_sinc_nonzero (x : R) : x <> 0 -> Spec.sinc x = sin x / x.
Proof.
  intros H. unfold Spec.sinc.
  destruct (Req_dec_T x 0); [contradiction|reflexivity].
Qed.


Lemma combine_map_same (A B C : Type) (f : A -> B) (h : A -> C) (l : list A) :
  combine (map f l) (map h l) = map (fun x => (f x, h x)) l.
Proof. induction l as [|a l IH]; simpl; [reflexivity|now rewrite IH]. Qed.

(** The cutoffs in closed form. *)
Lemma kernels_f_1 (self : t) (sample_rate : R) (gen : Generator) :
  l_f_1 (kernels self sample_rate gen)
  = map (fun i => draws gen (offset gen + i) * sample_rate / 2)
        (seq 0 (number_of_filters self)).
Proof. unfold kernels, rand, f_1. simpl. now rewrite map_map. Qed.

Lemma kernels_f_2 (self : t) (sample_rate : R) (gen : Generator) :
  l_f_2 (kernels self sample_rate gen)
  = map (fun i =>
           draws gen (offset gen + i) * sample_rate / 2
           + Rabs (draws gen (offset gen + i) * sample_rate / 2
                   - draws gen (offset gen + number_of_filters self + i)
                     * sample_rate / 2))
        (seq 0 (number_of_filters self)).
Proof.
  unfold kernels, rand, f_1, f_2. simpl.
  rewrite map_map, combine_map_same, map_map. reflexivity.
Qed.

Lemma kernels_generator (self : t) (sample_rate : R) (gen : Generator) :
  l_generator (kernels self sample_rate gen)
  = {| draws := draws gen;
       offset := offset gen + number_of_filters self + number_of_filters self |}.
Proof. reflexivity. Qed.

Lemma kernels_filters (self : t) (sample_rate : R) (gen : Generator) :
  let k := kernels self sample_rate gen in
  l_g_filter k = g_filter (l_f_1 k) (l_f_2 k) (n self) /\
  l_result_filters k = result_filters (l_g_filter k) (hamming_window (L self)).
Proof. split; reflexivity. Qed.


Lemma hamming_window_length (window_length : nat) :
  length (hamming_window window_length) = window_length.
Proof.
  destruct window_length as [|[|m]]; simpl; try reflexivity.
  now rewrite length_map, length_seq.
Qed.


Lemma g_filter_shape (f1 f2 n0 : list R) :
  length f1 = length f2 ->
  length (g_filter f1 f2 n0) = length f1 /\
  forall w, In w (g_filter f1 f2 n0) ->
            exists row, w = [row] /\ length row = length n0.
Proof.
  intros Hl. unfold g_filter. split.
  - rewrite length_map, length_combine. lia.
  - intros w Hw. apply in_map_iff in Hw. destruct Hw as [p [<- _]].
    eexists. split; [reflexivity|]. now rewrite length_map.
Qed.

Lemma kernels_shape (self : t) (sample_rate : R) (gen : Generator) :
  length (l_result_filters (kernels self sample_rate gen))
  = number_of_filters self /\
  forall w, In w (l_result_filters (kernels self sample_rate gen)) ->
            exists row, w = [row] /\ length row = L self.
Proof.
  destruct (kernels_filters self sample_rate gen) as [Hg Hr].
  cbv zeta in Hg, Hr. rewrite Hr, Hg.
  assert (Hl : length (l_f_1 (kernels self sample_rate gen))
               = length (l_f_2 (kernels self sample_rate gen))).
  { rewrite kernels_f_1, kernels_f_2. now rewrite !length_map. }
  destruct (g_filter_shape _ _ (n self) Hl) as [Hlen Hrows].
  unfold result_filters. split.
  - rewrite length_map, Hlen, kernels_f_1, length_map, length_seq. reflexivity.
  - intros w Hw. apply in_map_iff in Hw. destruct Hw as [w0 [<- Hw0]].
    destruct (Hrows _ Hw0) as [row [-> Hrow]].
    eexists. split; [reflexivity|].
    rewrite length_map, length_combine, Hrow, hamming_window_length.
    unfold n. rewrite length_map, length_seq. lia.
Qed.

(** When [conv1d] accepts its arguments. *)
Lemma conv1d_ok (input weight : tensor3) (w0 : list (list R)) (rest : tensor3)
  (kernel_size : nat) :
  weight = w0 :: rest ->
  (exists row, w0 = [row] /\ length row = kernel_size) ->
  (1 <= kernel_size)%nat ->
  Forall (fun b => exists s, b = [s] /\ (kernel_size <= length s)%nat) input ->
  conv1d input weight
  = Py.Ok
      (map (fun b =>
              map (fun w =>
                     map (correlate b w kernel_size)
                         (seq 0 (length (hd [] b) - kernel_size + 1)))
                  weight)
           input).
Proof.
  intros -> [row [-> Hrow]] Hk Hin. unfold conv1d.
  cbn [length hd]. rewrite Hrow.
  replace (forallb (fun b => (length b =? 1)%nat) input) with true.
  - replace (forallb (forallb (fun c => (kernel_size <=? length c)%nat)) input)
      with true.
    + replace (1 <=? kernel_size)%nat with true; [reflexivity|].
      symmetry. now apply Nat.leb_le.
    + symmetry. apply forallb_forall. intros b Hb.
      rewrite Forall_forall in Hin. destruct (Hin _ Hb) as [s0 [-> Hs]].
      simpl. rewrite andb_true_r. now apply Nat.leb_le.
  - symmetry. apply forallb_forall. intros b Hb.
    rewrite Forall_forall in Hin. destruct (Hin _ Hb) as [s0 [-> Hs]].
    reflexivity.
Qed.

Lemma conv1d_too_short (input weight : tensor3) (w0 : list (list R))
  (rest : tensor3) (b : list (list R)) (c : list R) :
  weight = w0 :: rest ->
  In b input -> In c b -> (length c < length (hd [] w0))%nat ->
  conv1d input weight = Py.Raise Py.RuntimeError.
Proof.
  intros -> Hb Hc Hlt. unfold conv1d.
  destruct (forallb (fun b0 => (length b0 =? length w0)%nat) input); simpl;
    [|reflexivity].
  destruct (forallb (forallb (fun c0 => (length (hd [] w0) <=? length c0)%nat))
                    input) eqn:E; simpl; [|reflexivity].
  rewrite forallb_forall in E. specialize (E _ Hb).
  rewrite forallb_forall in E. specialize (E _ Hc).
  apply Nat.leb_le in E. lia.
Qed.

Lemma forward_fst (self : t) (x : tensor3) (sample_rate : R) (gen : Generator) :
  fst (forward self x sample_rate gen)
  = Py.bind (results self x sample_rate gen)
            (fun _ => Py.Raise (Py.NameError "resultsl")).
Proof. reflexivity. Qed.

Lemma results_ok (self : t) (x : tensor3) (sample_rate : R) (gen : Generator) :
  (1 <= number_of_filters self)%nat -> (1 <= L self)%nat ->
  Forall (fun b => exists s, b = [s] /\ (L self <= length s)%nat) x ->
  results self x sample_rate gen
  = Py.Ok
      (map (fun b =>
              map (fun w =>
                     map (correlate b w (L self))
                         (seq 0 (length (hd [] b) - L self + 1)))
                  (l_result_filters (kernels self sample_rate gen)))
           x).
Proof.
  intros HF HL Hx. unfold results.
  destruct (kernels_shape self sample_rate gen) as [Hlen Hrows].
  destruct (l_result_filters (kernels self sample_rate gen)) as [|w0 rest] eqn:E.
  - simpl in Hlen. lia.
  - apply (conv1d_ok (w0 := w0) (rest := rest)); auto.
    apply Hrows. now left.
Qed.


Lemma nth_map_lt (A B : Type) (f : A -> B) (l : list A) (i : nat) (d : B) (d' : A) :
  (i < length l)%nat -> nth i (map f l) d = f (nth i l d').
Proof.
  intros H. rewrite (nth_indep (map f l) d (f d')) by now rewrite length_map.
  apply map_nth.
Qed.


Lemma g_filter_entry (self : t) (sample_rate : R) (gen : Generator)
  (i t0 : nat) :
  (i < number_of_filters self)%nat -> (t0 < L self)%nat ->
  let k := kernels self sample_rate gen in
  entry (l_g_filter k) i 0 t0
  = g (nth i (l_f_1 k) 0) (nth i (l_f_2 k) 0) (INR t0).
Proof.
  intros Hi Ht k.
  destruct (kernels_filters self sample_rate gen) as [Hg _].
  fold k in Hg. rewrite Hg. unfold entry, g_filter.
  assert (H1 : length (l_f_1 k) = number_of_filters self)
    by (unfold k; now rewrite kernels_f_1, length_map, length_seq).
  assert (H2 : length (l_f_2 k) = number_of_filters self)
    by (unfold k; now rewrite kernels_f_2, length_map, length_seq).
  rewrite (nth_map_lt _ _ _ (0, 0)) by (rewrite length_combine; lia).
  rewrite combine_nth by lia.
  cbn [nth fst snd].
  rewrite (nth_map_lt _ _ _ 0) by (unfold n; now rewrite length_map, length_seq).
  f_equal. unfold n.
  rewrite (nth_map_lt _ _ _ 0%nat) by now rewrite length_seq.
  now rewrite seq_nth.
Qed.

Lemma sum_upto_S (len : nat) (f : nat -> R) :
  sum_upto (S len) f = f 0%nat + sum_upto len (fun k => f (S k)).
Proof.
  unfold sum_upto. cbn [seq map fold_right].
  now rewrite <- seq_shift, map_map.
Qed.

Lemma sum_upto_ext (len : nat) (f h : nat -> R) :
  (forall k, (k < len)%nat -> f k = h k) -> sum_upto len f = sum_upto len h.
Proof.
  intros H. unfold sum_upto. f_equal. apply map_ext_in.
  intros k Hk. apply in_seq in Hk. apply H. lia.
Qed.

Lemma dot_sum (a b : list R) :
  length a = length b ->
  dot a b = sum_upto (length a) (fun k => nth k a 0 * nth k b 0).
Proof.
  revert b. induction a as [|x a IH]; intros [|y b] H; simpl in H;
    try discriminate.
  - reflexivity.
  - cbn [length]. rewrite sum_upto_S. cbn [nth].
    rewrite <- IH by lia. reflexivity.
Qed.

Lemma correlate_single (s0 row : list R) (t0 : nat) :
  (t0 + length row <= length s0)%nat ->
  correlate [s0] [row] (length row) t0
  = sum_upto (length row) (fun k => nth (t0 + k) s0 0 * nth k row 0).
Proof.
  intros H. unfold correlate. cbn [combine map fold_right fst snd].
  rewrite Rplus_0_r, dot_sum.
  - rewrite length_firstn, length_skipn, Nat.min_l by lia.
    apply sum_upto_ext. intros k Hk.
    rewrite nth_firstn, nth_skipn.
    apply Nat.ltb_lt in Hk. now rewrite Hk.
  - rewrite length_firstn, length_skipn. lia.
Qed.



End CustomFacts.

(** * The sinc layer: [Custom.forward] *)

Module SincLayer.
Import TorchR Custom Examples CustomFacts.
Local Open Scope R_scope.

(** ** The kernels *)




(** C5 fails on the code.  With the cutoffs 0 and 1/4 at offset 1 the
    formula of the claim, and of the text of the notebook, gives [1 / PI],
    a positive number; [torch.sinc] multiplies its argument by [PI] once
    more, and the value the code computes is not positive. *)
Theorem g_filter_uses_normalised_sinc :
  let k := kernels layer 16000 gen_low in
  l_f_1 k = [0] /\ l_f_2 k = [1 / 4] /\
  entry (l_g_filter k) 0 0 1 = g 0 (1 / 4) 1 /\
  g 0 (1 / 4) 1 <= 0 /\ Spec.g 0 (1 / 4) 1 = 1 / PI /\ 0 < 1 / PI.
Proof.
  pose proof PI_RGT_0 as Hpi. pose proof PI2_1 as Hpi2.
  pose proof PI_4 as Hpi4.
  assert (E1 : l_f_1 (kernels layer 16000 gen_low) = [0]).
  { rewrite kernels_f_1. cbn. f_equal. lra. }
  assert (E2 : l_f_2 (kernels layer 16000 gen_low) = [1 / 4]).
  { rewrite kernels_f_2. cbn. f_equal.
    rewrite Rabs_left by lra. lra. }
  cbv zeta. repeat split.
  - exact E1.
  - exact E2.
  - rewrite g_filter_entry by (simpl; lia). rewrite E1, E2. reflexivity.
  - unfold g. rewrite (sinc_nonzero (x := 2 * PI * (1 / 4) * 1)) by lra.
    assert (Hs : sin (PI * (2 * PI * (1 / 4) * 1)) <= 0).
    { apply sin_le_0; nra. }
    assert (Hd : 0 < PI * (2 * PI * (1 / 4) * 1)) by nra.
    assert (Hq : sin (PI * (2 * PI * (1 / 4) * 1))
                 / (PI * (2 * PI * (1 / 4) * 1)) <= 0).
    { apply Rinv_0_lt_compat in Hd. unfold Rdiv. nra. }
    lra.
  - unfold Spec.g.
    rewrite (spec_sinc_nonzero (x := 2 * PI * (1 / 4) * 1)) by lra.
    replace (2 * PI * (1 / 4) * 1) with (PI / 2) by field.
    rewrite sin_PI2. field. lra.
  - apply Rdiv_lt_0_compat; lra.
Qed.

(** C6, as stated, fails: the draws 4/5 and 0 at 16 kHz give the cutoffs
    6400 Hz and 12800 Hz, and 12800 is above the Nyquist frequency 8000. *)
Lemma high_cutoff_above_nyquist :
  let k := kernels layer 16000 gen_high in
  l_f_1 k = [6400] /\ l_f_2 k = [12800] /\
  ~ Forall (fun f2 => f2 <= 16000 / 2) (l_f_2 k).
Proof.
  assert (E1 : l_f_1 (kernels layer 16000 gen_high) = [6400]).
  { rewrite kernels_f_1. cbn. f_equal. lra. }
  assert (E2 : l_f_2 (kernels layer 16000 gen_high) = [12800]).
  { rewrite kernels_f_2. cbn. f_equal. rewrite Rabs_right by lra. lra. }
  cbv zeta. repeat split; try assumption.
  rewrite E2. intros H. inversion H; subst. lra.
Qed.

(** C6, as the code has it.  For draws in [0, 1) and a positive sample
    rate, every filter has [0 <= f_1 < sample_rate / 2] and
    [f_1 <= f_2 < sample_rate]: the low cutoff is below the Nyquist
    frequency, the high cutoff is at least the low one and below twice the
    Nyquist frequency. *)
Theorem cutoffs_bounds (self : t) (sample_rate : R) (gen : Generator) :
  uniform gen -> 0 < sample_rate ->
  let k := kernels self sample_rate gen in
  length (l_f_1 k) = number_of_filters self /\
  length (l_f_2 k) = number_of_filters self /\
  forall i, (i < number_of_filters self)%nat ->
    0 <= nth i (l_f_1 k) 0 < sample_rate / 2 /\
    nth i (l_f_1 k) 0 <= nth i (l_f_2 k) 0 < sample_rate.
Proof.
  intros Hu Hsr k. unfold k. rewrite kernels_f_1, kernels_f_2.
  rewrite !length_map, !length_seq. repeat split; try reflexivity;
    rewrite ?(nth_map_lt _ _ _ 0%nat) by (now rewrite length_seq);
    rewrite seq_nth by assumption; cbn [Nat.add];
    pose proof (Hu (offset gen + i)%nat) as [Ha1 Ha2];
    pose proof (Hu (offset gen + number_of_filters self + i)%nat)
      as [Hb1 Hb2];
    set (u := draws gen (offset gen + i)) in *;
    set (v := draws gen (offset gen + number_of_filters self + i)) in *.
  - nra.
  - nra.
  - pose proof (Rabs_pos (u * sample_rate / 2 - v * sample_rate / 2)). lra.
  - assert (A1 : 0 <= u * sample_rate / 2 < sample_rate / 2) by nra.
    assert (B1 : 0 <= v * sample_rate / 2 < sample_rate / 2) by nra.
    unfold Rabs. destruct (Rcase_abs _); lra.
Qed.

Lemma cutoffs_bounds_witness :
  let k := kernels layer 16000 gen_high in
  0 <= nth 0 (l_f_1 k) 0 < 16000 / 2 /\
  nth 0 (l_f_1 k) 0 <= nth 0 (l_f_2 k) 0 < 16000.
Proof.
  assert (Hu : uniform gen_high).
  { intros i. simpl. destruct (i =? 0)%nat; lra. }
  assert (Hsr : 0 < 16000) by lra.
  exact (proj2 (proj2 (cutoffs_bounds layer Hu Hsr)) 0%nat (Nat.lt_0_succ 0)).
Defined.





(** X18.  Every coefficient of the window lies between 0.08 and 1. *)
Theorem hamming_window_bounds (window_length : nat) (w : R) :
  In w (hamming_window window_length) -> 0.08 <= w <= 1.
Proof.
  destruct window_length as [|[|m]]; simpl.
  - tauto.
  - intros [<-|[]]. lra.
  - set (f := fun i => cos (INR i * (PI * 2) / INR (S (S m))) * - 0.46 + 0.54).
    intros H.
    assert (Hf : forall i, 0.08 <= f i <= 1).
    { intros i. unfold f.
      pose proof (COS_bound (INR i * (PI * 2) / INR (S (S m)))) as [H1 H2].
      lra. }
    change (match m with
            | 0%nat => 1
            | S _ => INR m + 1
            end + 1) with (INR (S (S m))) in H.
    destruct H as [<-|[<-|H]]; try apply (Hf 0%nat); try apply (Hf 1%nat).
    apply in_map_iff in H. destruct H as [i [<- _]]. apply Hf.
Qed.

Lemma hamming_window_bounds_witness :
  0.08 <= nth 1 (hamming_window 2) 0 <= 1.
Proof.
  apply (hamming_window_bounds 2). simpl. auto.
Defined.

(** ** The convolution and the return *)

(** C7 fails on the code.  For one segment of three samples and one kernel
    of length 2 the convolution is computed and bound to [results], but the
    [return] statement names [resultsl]: the call raises [NameError] and the
    caller receives no output. *)
Theorem forward_discards_results :
  Py.is_ok (results layer batch 16000 gen_half) = true /\
  fst (forward layer batch 16000 gen_half)
  = Py.Raise (Py.NameError "resultsl").
Proof.
  assert (H : Forall (fun b => exists s0, b = [s0]
                               /\ (L layer <= length s0)%nat) batch).
  { repeat constructor. eexists. split; [reflexivity|]. simpl. lia. }
  rewrite forward_fst.
  rewrite (results_ok layer 16000 gen_half) by (simpl; auto).
  split; reflexivity.
Qed.




(** X19.  The value bound to [results].  For [B] segments of one channel
    and [N] samples, at least one filter and [1 <= L <= N], the convolution
    succeeds, its output has the shape [(B, number_of_filters, N - L + 1)],
    and the entry [b, f, t] is the sum over [k < L] of
    [x[b, 0, t + k] * result_filters[f, 0, k]]. *)
Theorem results_cross_correlation (self : t) (x : tensor3) (sample_rate : R)
  (gen : Generator) (N : nat) :
  (1 <= number_of_filters self)%nat -> (1 <= L self <= N)%nat ->
  Forall (fun b => exists s0, b = [s0] /\ length s0 = N) x ->
  exists out,
    results self x sample_rate gen = Py.Ok out /\
    length out = length x /\
    forall b, (b < length x)%nat ->
      length (nth b out []) = number_of_filters self /\
      forall f, (f < number_of_filters self)%nat ->
        length (nth f (nth b out []) []) = (N - L self + 1)%nat /\
        forall t0, (t0 <= N - L self)%nat ->
          entry out b f t0
          = sum_upto (L self)
              (fun k => entry x b 0 (t0 + k)
                        * entry (l_result_filters
                                   (kernels self sample_rate gen)) f 0 k).
Proof.
  intros HF [HL HN] Hx.
  assert (Hx' : Forall (fun b => exists s0, b = [s0]
                                 /\ (L self <= length s0)%nat) x).
  { eapply Forall_impl; [|exact Hx]. intros b [s0 [-> Hs]].
    exists s0. split; [reflexivity|lia]. }
  eexists. split; [apply (results_ok self sample_rate gen HF HL Hx')|].
  destruct (kernels_shape self sample_rate gen) as [Hlen Hrows].
  set (W := l_result_filters (kernels self sample_rate gen)) in *.
  split; [apply length_map|].
  intros b Hb.
  rewrite (nth_map_lt _ _ _ []) by exact Hb.
  assert (Hbx : In (nth b x []) x) by now apply nth_In.
  rewrite Forall_forall in Hx. destruct (Hx _ Hbx) as [s0 [Es Hs]].
  split; [now rewrite length_map|].
  intros f Hf.
  rewrite (nth_map_lt _ _ _ []) by now rewrite Hlen.
  assert (Hfw : In (nth f W []) W) by (apply nth_In; now rewrite Hlen).
  destruct (Hrows _ Hfw) as [row [Er Hrow]].
  rewrite Es. cbn [hd]. rewrite Hs.
  split; [now rewrite length_map, length_seq|].
  intros t0 Ht. unfold entry at 1.
  rewrite (nth_map_lt _ _ _ []) by exact Hb.
  rewrite (nth_map_lt _ _ _ []) by now rewrite Hlen.
  rewrite Es. cbn [hd]. rewrite Hs.
  rewrite (nth_map_lt _ _ _ 0%nat) by (rewrite length_seq; lia).
  rewrite seq_nth by lia. cbn [Nat.add].
  rewrite Er, <- Hrow.
  rewrite correlate_single by lia.
  apply sum_upto_ext. intros k Hk. unfold entry.
  rewrite Es, Er. reflexivity.
Qed.

Lemma results_cross_correlation_witness :
  exists out,
    results layer batch 16000 gen_half = Py.Ok out /\
    length out = 1%nat /\
    length (nth 0 (nth 0 out []) []) = 2%nat.
Proof.
  destruct (@results_cross_correlation layer batch 16000 gen_half 3)
    as [out [H1 [H2 H3]]].
  - simpl. lia.
  - simpl. lia.
  - repeat constructor. eexists. split; reflexivity.
  - exists out. split; [exact H1|]. split; [exact H2|].
    destruct (H3 0%nat (Nat.lt_0_succ 0)) as [_ H4].
    exact (proj1 (H4 0%nat (Nat.lt_0_succ 0))).
Defined.

(** X20.  A call consumes [2 * number_of_filters] draws of the generator
    and no more, so the next call takes its low cutoffs from the draws
    that follow: no two calls share a draw. *)
Theorem forward_advances_generator (self : t) (x : tensor3)
  (sample_rate sample_rate' : R) (gen : Generator) :
  snd (forward self x sample_rate gen)
  = {| draws := draws gen;
       offset := offset gen + 2 * number_of_filters self |} /\
  l_f_1 (kernels self sample_rate' (snd (forward self x sample_rate gen)))
  = map (fun i => draws gen (offset gen + 2 * number_of_filters self + i)
                  * sample_rate' / 2)
        (seq 0 (number_of_filters self)).
Proof.
  assert (E : snd (forward self x sample_rate gen)
              = {| draws := draws gen;
                   offset := offset gen + 2 * number_of_filters self |}).
  { unfold forward. cbn [snd]. rewrite kernels_generator. f_equal. lia. }
  split; [exact E|]. rewrite E, kernels_f_1. reflexivity.
Qed.

(** X21.  Whatever the rest of the batch, one channel shorter than the
    kernel makes [forward] raise the [RuntimeError] of the convolution. *)
Theorem forward_short_segment (self : t) (x : tensor3) (sample_rate : R)
  (gen : Generator) (b : list (list R)) (c : list R) :
  (1 <= number_of_filters self)%nat ->
  In b x -> In c b -> (length c < L self)%nat ->
  fst (forward self x sample_rate gen) = Py.Raise Py.RuntimeError.
Proof.
  intros HF Hb Hc Hlt. rewrite forward_fst. unfold results.
  destruct (kernels_shape self sample_rate gen) as [Hlen Hrows].
  destruct (l_result_filters (kernels self sample_rate gen))
    as [|w0 rest] eqn:K; [simpl in Hlen; lia|].
  destruct (Hrows w0 (or_introl eq_refl)) as [row [-> Hrow]].
  rewrite (@conv1d_too_short x _ [row] rest b c eq_refl Hb Hc).
  - reflexivity.
  - simpl. now rewrite Hrow.
Qed.


Lemma forward_short_segment_witness :
  fst (forward layer short_batch 16000 gen_half) = Py.Raise Py.RuntimeError.
Proof.
  apply (@forward_short_segment layer short_batch 16000 gen_half [[1]] [1]).
  - simpl. lia.
  - simpl. auto.
  - simpl. auto.
  - simpl. lia.
Defined.

End SincLayer.
